(** * WWAQ glossary parser and Wozu system: a shallow embedding

    The development follows three source files:
    - [src/parser/wwaq_parser.py]      (class [WWAQGlossarParser]),
    - [src/src/glossar_manager.py]     (class [GlossarManager]),
    - [src/ez-chajim-wozu-system.py]   (classes [WozuValidator] and
                                        [EchtzeitKommunikator]).

    Python values are modelled as the code has them: a [str] is a sequence
    of Unicode code points, a [float] is an IEEE 754 binary64 number with
    round-to-nearest-even arithmetic, a [dict] keyed by an enumeration is
    a finite map, exceptions are an explicit error result. *)

From stdpp Require Import base option list gmap strings.
From Stdlib Require Import ZArith NArith QArith Qminmax Lia DecimalString Sorted.
From Stdlib Require Import Floats.SpecFloat.

Local Open Scope Z_scope.
Local Open Scope list_scope.
Local Open Scope nat_scope.

(* ===================================================================== *)
(** ** Python strings *)
(* ===================================================================== *)

Module Py.

(** A code point, and a [str] as the sequence of its code points:
    offsets, [len] and slices of the source count code points. *)
Definition char := N.
Definition str := list char.

(** Source literals are written as UTF-8 text; [utf8_go] decodes the
    bytes into code points ([acc] collects the payload bits of a
    multi-byte sequence, [pending] counts its outstanding bytes). *)
Fixpoint utf8_go (bs : list N) (acc : N) (pending : nat) : str :=
  match bs with
  | [] => []
  | b :: r =>
    match pending with
    | S p =>
      let acc' := (acc * 64 + b mod 64)%N in
      match p with
      | O => acc' :: utf8_go r 0%N O
      | S _ => utf8_go r acc' p
      end
    | O =>
      if (b <? 128)%N then b :: utf8_go r 0%N O
      else if (b <? 224)%N then utf8_go r (b mod 32)%N 1
      else if (b <? 240)%N then utf8_go r (b mod 16)%N 2
      else utf8_go r (b mod 8)%N 3
    end
  end.

Definition lit (s : string) : str :=
  utf8_go (map Ascii.N_of_ascii (String.list_ascii_of_string s)) 0%N O.
Global Arguments lit : simpl never.

(** [s.startswith(p)] *)
Fixpoint startswith (p s : str) : bool :=
  match p, s with
  | [], _ => true
  | _ :: _, [] => false
  | a :: p', b :: s' => (a =? b)%N && startswith p' s'
  end.

(** [needle in hay] for two strings: [needle] occurs as a contiguous
    run of [hay]; the empty string occurs in every string. *)
Fixpoint str_in (needle hay : str) : bool :=
  startswith needle hay ||
  match hay with
  | [] => false
  | _ :: hay' => str_in needle hay'
  end.

(** [s[a:b]] for offsets [0 <= a] and [0 <= b]: out-of-range bounds are
    clamped to the text, an empty range gives the empty string. *)
Definition slice (s : str) (a b : nat) : str := take (b - a) (drop a s).

(** [sep.join(parts)] *)
Fixpoint join (sep : str) (parts : list str) : str :=
  match parts with
  | [] => []
  | [p] => p
  | p :: rest => p ++ sep ++ join sep rest
  end.

(** [text.replace(old, new)]: every non-overlapping occurrence of [old],
    found left to right, is replaced by [new]. [skip] counts the
    characters of an occurrence that are still to be dropped. With an
    empty [old] Python puts [new] before every character and at the end. *)
Fixpoint replace_go (old new : str) (skip : nat) (text : str) : str :=
  match text with
  | [] => []
  | c :: r =>
    match skip with
    | S k => replace_go old new k r
    | O =>
      if startswith old text
      then new ++ replace_go old new (length old - 1) r
      else c :: replace_go old new O r
    end
  end.

Definition replace (text old new : str) : str :=
  match old with
  | [] => new ++ flat_map (fun c => c :: new) text
  | _ :: _ => replace_go old new O text
  end.

(** What the code takes from the Python runtime without defining it:
    the Unicode tables behind [str.lower] and behind the word characters
    of [re] ([\w] is [str.isalnum] or the underscore). *)
Class Runtime := {
  lower : str -> str;
  isalnum : char -> bool
}.

(** An exception raised by the embedded code. *)
Inductive Exception :=
  | AttributeError (attr : string)
  | ZeroDivisionError
  | IndexError
  | Fremd (name : string).

(** A computation that returns a value or raises. *)
Inductive result (A : Type) :=
  | Ok (a : A)
  | Raise (e : Exception).
Global Arguments Ok {A} a.
Global Arguments Raise {A} e.

(** Sequencing: an exception of the first step is the exception of the
    whole; written [x ← step; rest]. *)
Global Instance result_bind : MBind result := fun A B k r =>
  match r with
  | Ok a => k a
  | Raise e => Raise e
  end.

Definition returns {A} (r : result A) : bool :=
  match r with Ok _ => true | Raise _ => false end.

End Py.

Import Py.

(* ===================================================================== *)
(** ** Python floats *)
(* ===================================================================== *)

Module PyFloat.

(** binary64 *)
Definition prec : Z := 53.
Definition emax : Z := 1024.

Definition float := spec_float.

Definition of_Z (z : Z) : float := binary_normalize prec emax z 0 false.
Definition of_nat (n : nat) : float := of_Z (Z.of_nat n).

Definition add : float -> float -> float := SFadd prec emax.
Definition mul : float -> float -> float := SFmul prec emax.
Definition div : float -> float -> float := SFdiv prec emax.
Definition ltb : float -> float -> bool := SFltb.
Definition leb : float -> float -> bool := SFleb.

(** The decimal literal [n/d] of the source text: the parser yields the
    binary64 number nearest to it, which is the correctly rounded
    quotient of the two (exactly representable) integers. *)
Definition literal (n d : Z) : float := div (of_Z n) (of_Z d).

(** [min(a, b)] of two numbers: [b] if [b < a], else [a]. *)
Definition min (a b : float) : float := if ltb b a then b else a.

(** [a > b] *)
Definition gt (a b : float) : bool := ltb b a.

(** [a / n] for an [int] divisor. *)
Definition div_int (a : float) (n : nat) : result float :=
  match n with
  | O => Raise ZeroDivisionError
  | S _ => Ok (div a (of_nat n))
  end.

(** The exact rational value of a finite float. *)
Definition to_Q (f : float) : Q :=
  match f with
  | S754_finite s m e =>
    let v := match e with
             | Z0 => inject_Z (Zpos m)
             | Zpos p => inject_Z (Zpos m * 2 ^ Zpos p)
             | Zneg p => Qmake (Zpos m) (2 ^ p)
             end in
    if s then Qopp v else v
  | _ => 0%Q
  end.

End PyFloat.

(* ===================================================================== *)
(** ** The regular expressions of the rule table *)
(* ===================================================================== *)

Module Re.

(** Every pattern of the table has the shape [r'\bWORT\b']: a literal
    between two word boundaries. *)
Inductive Muster := Wortgrenzen (wort : str).

(** A match object: [start()], [end()] and [group()]. *)
Record Match := { m_start : nat; m_end : nat; m_group : str }.

Section Scan.
Context `{Runtime}.

(** [\w]: alphanumeric or underscore. *)
Definition is_word (c : char) : bool := isalnum c || (c =? 95)%N.

Definition word_at (c : option char) : bool :=
  match c with
  | Some c => is_word c
  | None => false
  end.

(** [\b] between the character before ([that]) and the character at
    ([this]) the position; the text ends count as non-word. *)
Definition at_boundary (that this : option char) : bool :=
  xorb (word_at that) (word_at this).

(** The pattern matches at the head of [text], [prev] being the
    character just before it. *)
Definition match_here (wort : str) (prev : option char) (text : str) : bool :=
  at_boundary prev (head text)
  && startswith wort text
  && at_boundary (match last wort with Some c => Some c | None => prev end)
                 (head (drop (length wort) text)).

(** [re.finditer]: the non-overlapping matches from left to right.
    [pos] is the offset of the head of [text], [skip] the number of
    characters of the last match still to be passed. *)
Fixpoint finditer_go (wort : str) (prev : option char) (pos skip : nat)
    (text : str) : list Match :=
  match text with
  | [] =>
    match skip with
    | O => if match_here wort prev []
           then [ {| m_start := pos; m_end := pos + length wort; m_group := wort |} ]
           else []
    | S _ => []
    end
  | c :: r =>
    match skip with
    | S k => finditer_go wort (Some c) (S pos) k r
    | O =>
      if match_here wort prev text
      then {| m_start := pos; m_end := pos + length wort; m_group := wort |}
           :: finditer_go wort (Some c) (S pos) (length wort - 1) r
      else finditer_go wort (Some c) (S pos) O r
    end
  end.

Definition finditer (muster : Muster) (text : str) : list Match :=
  let 'Wortgrenzen wort := muster in finditer_go wort None O O text.

(** [re.sub] with a replacement text that has no escapes or group
    references (none of the table has): the same matches, each replaced
    by [ersatz]. *)
Fixpoint sub_go (wort ersatz : str) (prev : option char) (skip : nat)
    (text : str) : str :=
  match text with
  | [] =>
    match skip with
    | O => if match_here wort prev [] then ersatz else []
    | S _ => []
    end
  | c :: r =>
    match skip with
    | S k => sub_go wort ersatz (Some c) k r
    | O =>
      if match_here wort prev text
      then ersatz ++ match wort with
                     | [] => c :: sub_go wort ersatz (Some c) O r
                     | _ :: _ => sub_go wort ersatz (Some c) (length wort - 1) r
                     end
      else c :: sub_go wort ersatz (Some c) O r
    end
  end.

Definition sub (muster : Muster) (ersatz text : str) : str :=
  let 'Wortgrenzen wort := muster in sub_go wort ersatz None O text.

End Scan.
End Re.

(* ===================================================================== *)
(** ** [WWAQGlossarParser] (src/parser/wwaq_parser.py) *)
(* ===================================================================== *)

Module Parser.
Import Re.

(** One entry of the change log. The [zeitstempel] entry of the source
    holds the wall-clock time of the call and is not part of the model. *)
Record Aenderung := {
  kategorie : str;
  original : str;
  ersatz : str;
  position : nat;
  kontext : str
}.

(** [self.statistik] *)
Record Statistik := { st_transformationen : nat; st_begriffe : nat }.

(** An ordered [dict] of rules, and the ordered [dict] of categories. *)
Definition Regeln := list (Muster * str).
Definition Transformationen := list (str * Regeln).

Record WWAQGlossarParser := {
  transformationen : Transformationen;
  statistik : Statistik
}.

Definition regel (wort neu : string) : Muster * str :=
  (Wortgrenzen (lit wort), lit neu).

Definition _initialisiere_transformationen : Transformationen :=
  [ (lit "k_zu_q",
     [ regel "WWAK" "WWAQ";
       regel "Kabbala" "Qabbala";
       regel "Kabbalah" "Qabbala";
       regel "kabbalistisch" "qabbalistisch";
       regel "Kabbalist" "Qabbalist";
       regel "Kabbalisten" "Qabbalisten";
       regel "Kawana" "Qawana";
       regel "Kavanah" "Qawana";
       regel "Kavana" "Qawana" ]);
    (lit "zer_elimination",
     [ regel "zerbrechen" "bersten";
       regel "zerbrach" "barst";
       regel "zerbrachen" "barsten";
       regel "zerbricht" "berstet";
       regel "zerbrochen" "geborsten";
       regel "Zerbrechen" "Bersten";
       regel "Zerbruch" "Bersten";
       regel "zerstören" "wandeln";
       regel "zerstört" "gewandelt";
       regel "zerstörte" "wandelte";
       regel "zerstörten" "wandelten";
       regel "zerstörend" "wandelnd";
       regel "Zerstörung" "Wandlung";
       regel "zerreißen" "öffnen";
       regel "zerriss" "öffnete";
       regel "zerrissen" "geöffnet";
       regel "zerreißt" "öffnet";
       regel "zerfallen" "sich wandeln";
       regel "zerfällt" "wandelt sich";
       regel "zerfiel" "wandelte sich";
       regel "zerfielen" "wandelten sich";
       regel "zerschlagen" "öffnen";
       regel "zerschlug" "öffnete";
       regel "zerschlägt" "öffnet";
       regel "verschwinden" "schwinden";
       regel "verschwand" "schwand";
       regel "verschwunden" "geschwunden" ]);
    (lit "din_31636",
     [ regel "Tzimtzum" "Zimzum";
       regel "Tzimzum" "Zimzum";
       regel "Dvekut" "Dwekut";
       regel "Devekut" "Dwekut";
       regel "Tikkun" "Tiqqun";
       regel "Tikun" "Tiqqun";
       regel "Atzilut" "Azilut";
       regel "Atziluth" "Azilut" ]) ].

(** [WWAQGlossarParser()] as far as [transformiere] reads it. *)
Definition neu : WWAQGlossarParser :=
  {| transformationen := _initialisiere_transformationen;
     statistik := {| st_transformationen := 0; st_begriffe := 0 |} |}.

Section Transformiere.
Context `{Runtime}.

(** The entry written for one match; [transformiert] is the text after
    the substitution of the rule, the offsets are those of the match. *)
Definition eintrag (kat neu transformiert : str) (m : Match) : Aenderung :=
  {| kategorie := kat;
     original := m_group m;
     ersatz := neu;
     position := m_start m;
     kontext := slice transformiert (Nat.max 0 (m_start m - 20)) (m_end m + 20) |}.

(** The body of the inner loop, for one rule [(muster, ersatz)]. *)
Definition regel_schritt (kat : str) (zustand : str * list Aenderung)
    (r : Muster * str) : str * list Aenderung :=
  let '(transformiert, aenderungen) := zustand in
  let '(muster, neu) := r in
  let matches := finditer muster transformiert in
  match matches with
  | [] => (transformiert, aenderungen)
  | _ :: _ =>
    let transformiert := sub muster neu transformiert in
    (transformiert, aenderungen ++ map (eintrag kat neu transformiert) matches)
  end.

(** The body of the outer loop, for one category. *)
Definition kategorie_schritt (zustand : str * list Aenderung)
    (k : str * Regeln) : str * list Aenderung :=
  let '(kat, regeln) := k in
  foldl (regel_schritt kat) zustand regeln.

Definition transformiere (self : WWAQGlossarParser) (text : str)
    : (str * list Aenderung) * WWAQGlossarParser :=
  match text with
  | [] => (([], []), self)
  | _ :: _ =>
    let '(transformiert, aenderungen) :=
      foldl kategorie_schritt (text, []) (transformationen self) in
    let st := statistik self in
    ((transformiert, aenderungen),
     {| transformationen := transformationen self;
        statistik := {| st_transformationen := st_transformationen st + 1;
                        st_begriffe := st_begriffe st + length aenderungen |} |})
  end.

(** The rules in the order in which the two nested loops visit them,
    each with the name of its category, the loop body on that sequence,
    and the text as it stands after the rules [vor], starting from
    [text]. *)
Definition regelfolge (t : Transformationen) : list (str * (Muster * str)) :=
  flat_map (fun '(kat, regeln) => map (pair kat) regeln) t.

Definition schritt (zustand : str * list Aenderung) (r : str * (Muster * str))
    : str * list Aenderung :=
  regel_schritt r.1 zustand r.2.

Definition zwischentext (vor : list (str * (Muster * str))) (text : str) : str :=
  (foldl schritt (text, []) vor).1.

End Transformiere.
End Parser.

(* ===================================================================== *)
(** ** The Wozu system (src/ez-chajim-wozu-system.py) *)
(* ===================================================================== *)

Module Wozu.

(** [class FrageTyp(Enum)] *)
Inductive FrageTyp := WOZU | WARUM | WIE | WAS | WER | WO | WANN.

Global Instance FrageTyp_eq_dec : EqDecision FrageTyp.
Proof. solve_decision. Defined.

Definition FrageTyp_to_nat (f : FrageTyp) : nat :=
  match f with
  | WOZU => 0 | WARUM => 1 | WIE => 2 | WAS => 3 | WER => 4 | WO => 5 | WANN => 6
  end.

Definition FrageTyp_of_nat (n : nat) : FrageTyp :=
  match n with
  | 0 => WOZU | 1 => WARUM | 2 => WIE | 3 => WAS | 4 => WER | 5 => WO | _ => WANN
  end.

Global Instance FrageTyp_countable : Countable FrageTyp.
Proof.
  apply (inj_countable' FrageTyp_to_nat FrageTyp_of_nat).
  intros []; reflexivity.
Defined.

(** Modelled from the spec: the enumeration [Olam] is declared in
    src/azilut_konverter.py, which is not among the sources. The code
    names its member [ASIJA]; the other three are the worlds that the
    comments of [FrageTyp] and the protocol table of the main block list
    next to it. *)
Inductive Olam := AZILUT | BERIJA | JEZIRA | ASIJA.

Global Instance Olam_eq_dec : EqDecision Olam.
Proof. solve_decision. Defined.

(** [class PardesLevel(Enum)] (src/src/pardes/core/pardes_system.py) *)
Inductive PardesLevel := PSCHAT | REMEZ | DRASCH | SOD.

(** [@dataclass class WozuValidierung] *)
Record WozuValidierung := {
  ist_verankert : bool;
  azilut_score : PyFloat.float;
  fehlende_wozu_aspekte : list str;
  empfohlene_korrekturen : list str;
  weltebene : Olam
}.

(** What the module takes from collaborators that are not among the
    sources, or that no claim is about:
    - [AzilutKonverter().erkenne_weltebene(text)], which may raise;
    - [HNS10SpiralTime().current_spiral_time()] and the type of the
      [dict] it returns;
    - [PardesAnalyzer().analyze_text(text)[ebene].interpretation], total
      because [analyze_text] catches every exception of its processors;
    - the two tables that [GlossarManager] loads from its YAML file. *)
Class Kollaborateure := {
  SpiralZeit : Type;
  erkenne_weltebene : str -> result Olam;
  current_spiral_time : result SpiralZeit;
  analyze_text : str -> PardesLevel -> str;
  K_zu_Q : list (str * str);
  Zer_Elimination : list (str * str)
}.

Section System.
Context `{Runtime} `{Kollaborateure}.

(** [@dataclass class EchtzeitNachricht] *)
Record EchtzeitNachricht := {
  inhalt : str;
  wozu : str;
  sender_modul : str;
  empfänger_modul : str;
  frage_hierarchie : gmap FrageTyp str;
  pardes_ebene : option PardesLevel;
  spiral_zeit : option SpiralZeit;
  validierung : option WozuValidierung;
  zeitstempel : str
}.

(** The value of an attribute of a message. *)
Inductive Wert :=
  | VStr (s : str)
  | VHierarchie (d : gmap FrageTyp str)
  | VPardes (p : option PardesLevel)
  | VSpiral (z : option SpiralZeit)
  | VValidierung (v : option WozuValidierung).

(** [nachricht.<name>]: the dataclass has the nine fields above and
    no [__getattr__]; any other name raises [AttributeError]. *)
Definition getattr (nachricht : EchtzeitNachricht) (name : string) : result Wert :=
  if String.eqb name "inhalt" then Ok (VStr (inhalt nachricht))
  else if String.eqb name "wozu" then Ok (VStr (wozu nachricht))
  else if String.eqb name "sender_modul" then Ok (VStr (sender_modul nachricht))
  else if String.eqb name "empfänger_modul" then Ok (VStr (empfänger_modul nachricht))
  else if String.eqb name "frage_hierarchie" then Ok (VHierarchie (frage_hierarchie nachricht))
  else if String.eqb name "pardes_ebene" then Ok (VPardes (pardes_ebene nachricht))
  else if String.eqb name "spiral_zeit" then Ok (VSpiral (spiral_zeit nachricht))
  else if String.eqb name "validierung" then Ok (VValidierung (validierung nachricht))
  else if String.eqb name "zeitstempel" then Ok (VStr (zeitstempel nachricht))
  else Raise (AttributeError name).

(** [wert == Olam.X]: no attribute of a message holds a member of
    [Olam], and a member of an enumeration equals only itself. *)
Definition eq_Olam (w : Wert) (o : Olam) : bool :=
  match w with
  | VStr _ | VHierarchie _ | VPardes _ | VSpiral _ | VValidierung _ => false
  end.

(** [key in d] *)
Definition dict_in {V} (k : FrageTyp) (d : gmap FrageTyp V) : bool :=
  match d !! k with
  | Some _ => true
  | None => false
  end.

(** [sum(1 for x in l if p(x))] *)
Definition count_if {A} (p : A -> bool) (l : list A) : nat :=
  length (List.filter p l).

(** *** [class WozuValidator] *)

Definition WOZU_INDIKATOREN : list str :=
  map lit [ "um zu"; "damit"; "zwecks"; "zur"; "für die";
            "למען"; "כדי"; "לשם"; "בשביל" ]%string.

Definition AZILUT_MARKER : list str :=
  map lit [ "אין סוף"; "unendliches Licht"; "Emanation";
            "höchste Absicht"; "göttlicher Zweck"; "Tiqqun" ]%string.

Definition _berechne_azilut_score (nachricht : EchtzeitNachricht) : PyFloat.float :=
  let score := PyFloat.of_Z 0 in
  let score :=
    match wozu nachricht with
    | _ :: _ => PyFloat.add score (PyFloat.literal 3 10)
    | [] => score
    end in
  let wozu_count :=
    count_if (fun ind => str_in ind (lower (wozu nachricht))) WOZU_INDIKATOREN in
  let score :=
    PyFloat.add score
      (PyFloat.min (PyFloat.mul (PyFloat.of_nat wozu_count) (PyFloat.literal 1 10))
                   (PyFloat.literal 2 10)) in
  let azilut_count :=
    count_if (fun marker => str_in marker (inhalt nachricht)
                            || str_in marker (wozu nachricht)) AZILUT_MARKER in
  let score :=
    PyFloat.add score
      (PyFloat.min (PyFloat.mul (PyFloat.of_nat azilut_count) (PyFloat.literal 15 100))
                   (PyFloat.literal 3 10)) in
  let score :=
    if dict_in WOZU (frage_hierarchie nachricht)
    then PyFloat.add score (PyFloat.literal 2 10)
    else score in
  PyFloat.min score (PyFloat.of_Z 1).

Definition _erkenne_weltebene (nachricht : EchtzeitNachricht) : result Olam :=
  erkenne_weltebene (inhalt nachricht).

Definition _finde_fehlende_aspekte (nachricht : EchtzeitNachricht) : result (list str) :=
  let fehlend := [] in
  let fehlend :=
    if negb (dict_in WOZU (frage_hierarchie nachricht))
    then fehlend ++ [lit "Wozu-Frage nicht in Hierarchie"]
    else fehlend in
  let fehlend :=
    if negb (existsb (fun ind => str_in ind (lower (wozu nachricht))) WOZU_INDIKATOREN)
    then fehlend ++ [lit "Keine klaren Zweck-Indikatoren"]
    else fehlend in
  w ← getattr nachricht "weltebene";
  let fehlend :=
    if eq_Olam w ASIJA
    then fehlend ++ [lit "Zu stark in Asija (Handlung) verhaftet"]
    else fehlend in
  Ok fehlend.

Definition WWAQ_HINWEIS : str :=
  lit "Verwende WWAQ-konforme Sprache: wandeln statt wandeln, bersten statt bersten".

Definition _generiere_korrekturen (fehlende : list str) : list str :=
  let korrekturen :=
    foldl (fun korrekturen fehler =>
             if str_in (lit "Wozu-Frage") fehler
             then korrekturen ++ [lit "Füge primäre Wozu-Frage hinzu: 'Wozu dient diese Kommunikation?'"]
             else if str_in (lit "Zweck-Indikatoren") fehler
             then korrekturen ++ [lit "Verwende klare Zweck-Formulierungen: 'um zu...', 'damit...'"]
             else if str_in (lit "Asija") fehler
             then korrekturen ++ [lit "Erhebe Perspektive: Von WAS (Asija) zu WOZU (Azilut)"]
             else korrekturen)
          [] fehlende in
  korrekturen ++ [WWAQ_HINWEIS].

Definition KEIN_WOZU : str := lit "Kein Wozu definiert!".
Definition DEFINIERE_ZWECK : str := lit "Definiere klaren Zweck/Absicht".

Definition validiere_wozu_zentrierung (nachricht : EchtzeitNachricht)
    : result WozuValidierung :=
  match wozu nachricht with
  | [] =>
    Ok {| ist_verankert := false;
          azilut_score := PyFloat.of_Z 0;
          fehlende_wozu_aspekte := [KEIN_WOZU];
          empfohlene_korrekturen := [DEFINIERE_ZWECK];
          weltebene := ASIJA |}
  | _ :: _ =>
    let azilut_score := _berechne_azilut_score nachricht in
    weltebene ← _erkenne_weltebene nachricht;
    fehlende_aspekte ← _finde_fehlende_aspekte nachricht;
    Ok {| ist_verankert := PyFloat.gt azilut_score (PyFloat.literal 7 10);
          azilut_score := azilut_score;
          fehlende_wozu_aspekte := fehlende_aspekte;
          empfohlene_korrekturen := _generiere_korrekturen fehlende_aspekte;
          weltebene := weltebene |}
  end.

(** *** [class GlossarManager] (src/src/glossar_manager.py) *)

Definition transform (text : str) : str :=
  let text := foldl (fun text '(old, new) => replace text old new) text K_zu_Q in
  foldl (fun text '(old, new) => replace text old new) text Zer_Elimination.

(** *** [class EchtzeitKommunikator] *)

(** A line written by [print]. A formatted number is kept as the number
    it renders (the source prints scores with two decimals). *)
Inductive Zeile :=
  | Warnung_nicht_verankert
  | Warnung_score (score : PyFloat.float)
  | Warnung_fehlend (fehlend : str)
  | Warnung_empfehlung (empfehlung : str)
  | Gesendet (sender empfänger : str)
  | Gesendet_wozu (wozu : str)
  | Gesendet_score (score : PyFloat.float)
  | Gesendet_pardes (ebene : option PardesLevel).

(** The communicator as far as the two message operations use it:
    [nachrichten_queue] is the unbounded [asyncio.Queue], oldest
    message first. *)
Record EchtzeitKommunikator := {
  nachrichten_queue : list EchtzeitNachricht
}.

(** What a call leaves behind: the message object, which the caller
    still holds and which the call writes to, the communicator, and the
    lines printed so far. *)
Record Welt := {
  objekt : EchtzeitNachricht;
  komm : EchtzeitKommunikator;
  stdout : list Zeile
}.

(** [await queue.put(x)] on an unbounded queue. *)
Definition put (queue : list EchtzeitNachricht) (x : EchtzeitNachricht)
    : list EchtzeitNachricht :=
  queue ++ [x].

Definition set_inhalt (n : EchtzeitNachricht) (x : str) : EchtzeitNachricht :=
  {| inhalt := x; wozu := wozu n; sender_modul := sender_modul n;
     empfänger_modul := empfänger_modul n; frage_hierarchie := frage_hierarchie n;
     pardes_ebene := pardes_ebene n; spiral_zeit := spiral_zeit n;
     validierung := validierung n; zeitstempel := zeitstempel n |}.

Definition set_wozu (n : EchtzeitNachricht) (x : str) : EchtzeitNachricht :=
  {| inhalt := inhalt n; wozu := x; sender_modul := sender_modul n;
     empfänger_modul := empfänger_modul n; frage_hierarchie := frage_hierarchie n;
     pardes_ebene := pardes_ebene n; spiral_zeit := spiral_zeit n;
     validierung := validierung n; zeitstempel := zeitstempel n |}.

Definition set_validierung (n : EchtzeitNachricht) (x : WozuValidierung)
    : EchtzeitNachricht :=
  {| inhalt := inhalt n; wozu := wozu n; sender_modul := sender_modul n;
     empfänger_modul := empfänger_modul n; frage_hierarchie := frage_hierarchie n;
     pardes_ebene := pardes_ebene n; spiral_zeit := spiral_zeit n;
     validierung := Some x; zeitstempel := zeitstempel n |}.

Definition set_spiral_zeit (n : EchtzeitNachricht) (x : SpiralZeit)
    : EchtzeitNachricht :=
  {| inhalt := inhalt n; wozu := wozu n; sender_modul := sender_modul n;
     empfänger_modul := empfänger_modul n; frage_hierarchie := frage_hierarchie n;
     pardes_ebene := pardes_ebene n; spiral_zeit := Some x;
     validierung := validierung n; zeitstempel := zeitstempel n |}.

Definition set_pardes_ebene (n : EchtzeitNachricht) (x : PardesLevel)
    : EchtzeitNachricht :=
  {| inhalt := inhalt n; wozu := wozu n; sender_modul := sender_modul n;
     empfänger_modul := empfänger_modul n; frage_hierarchie := frage_hierarchie n;
     pardes_ebene := Some x; spiral_zeit := spiral_zeit n;
     validierung := validierung n; zeitstempel := zeitstempel n |}.

Definition VERBORGEN : str := lit "Die Geheimnisse bleiben verborgen".

(** The loop over [SOD, DRASCH, REMEZ, PSCHAT] with its [break]. *)
Definition höchste_ebene (pardes_analyse : PardesLevel -> str) : option PardesLevel :=
  List.find (fun ebene => negb (bool_decide (pardes_analyse ebene = VERBORGEN)))
            [SOD; DRASCH; REMEZ; PSCHAT].

(** Step 0 of [sende_nachricht]: both texts are rewritten in place. *)
Definition normalisiere (nachricht : EchtzeitNachricht) : EchtzeitNachricht :=
  let nachricht := set_inhalt nachricht (transform (inhalt nachricht)) in
  set_wozu nachricht (transform (wozu nachricht)).

Definition sende_nachricht (self : EchtzeitKommunikator)
    (nachricht : EchtzeitNachricht) (out : list Zeile) : result bool * Welt :=
  let nachricht := normalisiere nachricht in
  match validiere_wozu_zentrierung nachricht with
  | Raise e => (Raise e, {| objekt := nachricht; komm := self; stdout := out |})
  | Ok validierung =>
    let nachricht := set_validierung nachricht validierung in
    if negb (ist_verankert validierung) then
      let out := out ++ [ Warnung_nicht_verankert;
                          Warnung_score (azilut_score validierung);
                          Warnung_fehlend
                            (join (lit ", ") (fehlende_wozu_aspekte validierung)) ] in
      match empfohlene_korrekturen validierung !! 0 with
      | None =>
        (Raise IndexError, {| objekt := nachricht; komm := self; stdout := out |})
      | Some empfehlung =>
        (Ok false, {| objekt := nachricht; komm := self;
                      stdout := out ++ [Warnung_empfehlung empfehlung] |})
      end
    else
      match current_spiral_time with
      | Raise e => (Raise e, {| objekt := nachricht; komm := self; stdout := out |})
      | Ok zeit =>
        let nachricht := set_spiral_zeit nachricht zeit in
        let nachricht :=
          match pardes_ebene nachricht with
          | Some _ => nachricht
          | None =>
            match höchste_ebene (analyze_text (inhalt nachricht)) with
            | Some ebene => set_pardes_ebene nachricht ebene
            | None => nachricht
            end
          end in
        (Ok true,
         {| objekt := nachricht;
            komm := {| nachrichten_queue := put (nachrichten_queue self) nachricht |};
            stdout := out ++ [ Gesendet (sender_modul nachricht) (empfänger_modul nachricht);
                               Gesendet_wozu (wozu nachricht);
                               Gesendet_score (azilut_score validierung);
                               Gesendet_pardes (pardes_ebene nachricht) ] |})
      end
  end.

(** One request for the next element of the generator
    [empfange_nachrichten(modul_name)]: messages are taken from the head
    of the queue until one is addressed to [modul_name]; the others are
    not put back. [None] stands for the generator waiting in
    [queue.get()] on the empty queue. *)
Fixpoint anext (modul_name : str) (queue : list EchtzeitNachricht)
    : option EchtzeitNachricht * list EchtzeitNachricht :=
  match queue with
  | [] => (None, [])
  | nachricht :: queue =>
    if bool_decide (empfänger_modul nachricht = modul_name)
    then (Some nachricht, queue)
    else anext modul_name queue
  end.

(** A consumer that asks the generator for up to [k] messages and stops
    asking once the generator waits on the empty queue. *)
Fixpoint empfange_nachrichten (k : nat) (modul_name : str)
    (queue : list EchtzeitNachricht)
    : list EchtzeitNachricht * list EchtzeitNachricht :=
  match k with
  | O => ([], queue)
  | S k =>
    match anext modul_name queue with
    | (None, queue) => ([], queue)
    | (Some nachricht, queue) =>
      let '(rest, queue) := empfange_nachrichten k modul_name queue in
      (nachricht :: rest, queue)
    end
  end.

(** The messages of a queue that are addressed to [modul_name], in the
    order of the queue. *)
Definition nachrichten_für (modul_name : str) (queue : list EchtzeitNachricht)
    : list EchtzeitNachricht :=
  List.filter (fun nachricht => bool_decide (empfänger_modul nachricht = modul_name))
              queue.

(** *** [generiere_wozu_bericht] *)

(** A line of the report; numbers and names are kept unformatted, the
    [Zeitpunkt] line holds the wall-clock time and carries nothing. *)
Inductive Berichtszeile :=
  | B_Titel
  | B_Zeitpunkt
  | B_Anzahl (n : nat)
  | B_Leer
  | B_Verankert (verankert gesamt : nat) (prozent : PyFloat.float)
  | B_Durchschnitt (score : PyFloat.float)
  | B_Weltebenen_Titel
  | B_Weltebene (ebene : Olam) (count : nat)
  | B_Empfehlungen_Titel
  | B_Empfehlung (empf : str) (count : nat)
  | B_Q.

(** [d[k] = d.get(k, 0) + 1] on a [dict] in insertion order. *)
Fixpoint zähle {K} `{EqDecision K} (k : K) (d : list (K * nat)) : list (K * nat) :=
  match d with
  | [] => [(k, 1)]
  | (k', c) :: d => if decide (k' = k) then (k', c + 1) :: d else (k', c) :: zähle k d
  end.

(** [sorted(items, key=lambda x: x[1], reverse=True)]: descending by
    count, entries of equal count in their original order. *)
Fixpoint einsortieren {K} (x : K * nat) (l : list (K * nat)) : list (K * nat) :=
  match l with
  | [] => [x]
  | y :: l' => if y.2 <? x.2 then x :: y :: l' else y :: einsortieren x l'
  end.

Definition absteigend {K} (items : list (K * nat)) : list (K * nat) :=
  foldl (fun sortiert x => einsortieren x sortiert) [] items.

Definition generiere_wozu_bericht (nachrichten : list EchtzeitNachricht)
    : result (list Berichtszeile) :=
  let bericht := [ B_Titel; B_Zeitpunkt; B_Anzahl (length nachrichten); B_Leer ] in
  let verankert :=
    count_if (fun n => match validierung n with
                       | Some v => ist_verankert v
                       | None => false
                       end) nachrichten in
  let summe :=
    foldl PyFloat.add (PyFloat.of_Z 0)
          (omap (fun n => azilut_score <$> validierung n) nachrichten) in
  durchschnitt_score ← PyFloat.div_int summe (length nachrichten);
  anteil ← PyFloat.div_int (PyFloat.of_nat verankert) (length nachrichten);
  let bericht :=
    bericht ++ [ B_Verankert verankert (length nachrichten)
                             (PyFloat.mul anteil (PyFloat.of_Z 100));
                 B_Durchschnitt durchschnitt_score;
                 B_Leer;
                 B_Weltebenen_Titel ] in
  let weltebenen_count :=
    foldl (fun d n => match validierung n with
                      | Some v => zähle (weltebene v) d
                      | None => d
                      end) [] nachrichten in
  let bericht :=
    bericht ++ map (fun '(ebene, count) => B_Weltebene ebene count)
                   (absteigend weltebenen_count) in
  let bericht := bericht ++ [ B_Leer; B_Empfehlungen_Titel ] in
  let alle_empfehlungen :=
    flat_map (fun n => match validierung n with
                       | Some v => if negb (ist_verankert v)
                                   then empfohlene_korrekturen v else []
                       | None => []
                       end) nachrichten in
  let empf_counter := foldl (fun d e => zähle e d) [] alle_empfehlungen in
  let bericht :=
    bericht ++ map (fun '(empf, count) => B_Empfehlung empf count)
                   (take 5 (absteigend empf_counter)) in
  Ok (bericht ++ [ B_Q ]).

End System.
End Wozu.

(* ===================================================================== *)
(** ** The claims of the specification, in its own words *)
(* ===================================================================== *)

Module Spezifikation.
Import Wozu Parser.

Section Score.
Context `{Runtime} `{Kollaborateure}.

(** The clamp of a number to [[0,1]]. *)
Definition clamp01 (x : PyFloat.float) : PyFloat.float :=
  if PyFloat.ltb x (PyFloat.of_Z 0) then PyFloat.of_Z 0
  else if PyFloat.ltb (PyFloat.of_Z 1) x then PyFloat.of_Z 1
  else x.

(** The number of purpose-indicator phrases found in the purpose,
    whatever its case, and of domain-anchor markers found in the content
    or in the purpose. *)
Definition indicators_found (n : EchtzeitNachricht) : nat :=
  length (List.filter (fun phrase => str_in phrase (lower (wozu n))) WOZU_INDIKATOREN).

Definition markers_found (n : EchtzeitNachricht) : nat :=
  length (List.filter (fun marker => str_in marker (inhalt n) || str_in marker (wozu n))
                      AZILUT_MARKER).

(** The score as the specification words it: the clamp of the sum of
    the four capped contributions. *)
Definition spec_score (n : EchtzeitNachricht) : PyFloat.float :=
  let purpose := PyFloat.literal 3 10 in
  let indicators :=
    PyFloat.min (PyFloat.mul (PyFloat.literal 1 10) (PyFloat.of_nat (indicators_found n)))
                (PyFloat.literal 2 10) in
  let markers :=
    PyFloat.min (PyFloat.mul (PyFloat.literal 15 100) (PyFloat.of_nat (markers_found n)))
                (PyFloat.literal 3 10) in
  let hierarchy :=
    if dict_in WOZU (frage_hierarchie n) then PyFloat.literal 2 10 else PyFloat.of_Z 0 in
  clamp01 (PyFloat.add (PyFloat.add (PyFloat.add purpose indicators) markers) hierarchy).

(** The same sum in exact decimal arithmetic. *)
Definition spec_score_Q (n : EchtzeitNachricht) : Q :=
  let indicators :=
    Qmin (inject_Z (Z.of_nat (indicators_found n)) * (1 # 10)) (2 # 10) in
  let markers :=
    Qmin (inject_Z (Z.of_nat (markers_found n)) * (15 # 100)) (3 # 10) in
  let hierarchy :=
    if dict_in WOZU (frage_hierarchie n) then (2 # 10)%Q else 0%Q in
  Qmax 0 (Qmin 1 ((3 # 10) + indicators + markers + hierarchy)).

End Score.

(** What the specification says of one change record and the final
    text: [position] is where the replacement stands in the final text,
    and [kontext] is the window of 20 characters on each side of the
    replacement in the final text, clamped to the text. *)
Definition im_endtext (final : str) (a : Aenderung) : Prop :=
  slice final (position a) (position a + length (ersatz a)) = ersatz a
  /\ kontext a = slice final (position a - 20) (position a + length (ersatz a) + 20).

End Spezifikation.

(* ===================================================================== *)
(** ** Concrete runtime, collaborators and messages *)
(* ===================================================================== *)

Module Beispiel.
Import Wozu Parser.

(** On ASCII text, which is all the examples use, [str.lower] and
    [str.isalnum] are the following. *)
Definition ascii_lower (s : str) : str :=
  map (fun c => if (65 <=? c)%N && (c <=? 90)%N then (c + 32)%N else c) s.

Definition ascii_isalnum (c : char) : bool :=
  ((48 <=? c) && (c <=? 57) || (65 <=? c) && (c <=? 90) || (97 <=? c) && (c <=? 122))%N.

Definition laufzeit : Runtime :=
  {| lower := ascii_lower; isalnum := ascii_isalnum |}.

(** Collaborators that always answer; the tables are the first entries
    of src/simple_glossar_check.py. *)
Definition kollaborateure : Kollaborateure :=
  {| SpiralZeit := nat;
     erkenne_weltebene := fun _ => Ok JEZIRA;
     current_spiral_time := Ok 0;
     analyze_text := fun _ _ => lit "Text";
     K_zu_Q := [ (lit "Kabbala", lit "Qabbala"); (lit "Kawana", lit "Qawana") ];
     Zer_Elimination := [ (lit "zerbrechen", lit "bersten") ] |}.

Definition nachricht (text zweck an : string) (fragen : gmap FrageTyp str)
    : @EchtzeitNachricht kollaborateure :=
  {| inhalt := lit text; wozu := lit zweck;
     sender_modul := lit "test-sender"; empfänger_modul := lit an;
     frage_hierarchie := fragen;
     pardes_ebene := None; spiral_zeit := None; validierung := None;
     zeitstempel := lit "5785-10-10T00:00:00" |}.

(** A message with a purpose, an indicator phrase, two markers and the
    WOZU question, and a message without a purpose. *)
Definition gute_nachricht : @EchtzeitNachricht kollaborateure :=
  nachricht "Emanation und Tiqqun" "um zu lernen" "A" {[ WOZU := lit "um zu lernen" ]}.

Definition schlechte_nachricht : @EchtzeitNachricht kollaborateure :=
  nachricht "Verarbeite diesen Text" "" "B" {[ WAS := lit "Text" ]}.

(** A message whose contributions add up to exactly 0.7: a purpose
    with two indicator phrases, no marker, and the WOZU question. *)
Definition grenz_nachricht : @EchtzeitNachricht kollaborateure :=
  nachricht "Verarbeite diesen Text" "um zu lernen damit" "A"
            {[ WOZU := lit "um zu lernen damit" ]}.

Definition leer : @EchtzeitKommunikator kollaborateure :=
  {| nachrichten_queue := [] |}.

(** The verdict of the short path. *)
Definition kurzes_urteil : WozuValidierung :=
  {| ist_verankert := false;
     azilut_score := PyFloat.of_Z 0;
     fehlende_wozu_aspekte := [KEIN_WOZU];
     empfohlene_korrekturen := [DEFINIERE_ZWECK];
     weltebene := ASIJA |}.

(** One message for module A, sent before one message for module B. *)
Definition für_A : @EchtzeitNachricht kollaborateure :=
  nachricht "erste" "um zu senden" "A" {[ WOZU := lit "um zu senden" ]}.

Definition für_B : @EchtzeitNachricht kollaborateure :=
  nachricht "zweite" "um zu senden" "B" {[ WOZU := lit "um zu senden" ]}.

Definition queue_A_B : list (@EchtzeitNachricht kollaborateure) :=
  put (put [] für_A) für_B.

(** A text with two occurrences of a token whose replacement is one
    character shorter, followed by a token of a later category; the
    change record of the second occurrence. *)
Definition text_zerbrochen : str := lit "zerbrochen zerbrochen Tikun".

Definition zweite_aenderung : Aenderung :=
  {| kategorie := lit "zer_elimination";
     original := lit "zerbrochen";
     ersatz := lit "geborsten";
     position := 11;
     kontext := lit "geborsten geborsten Tikun" |}.

(** Twelve occurrences of a token whose replacement is three characters
    longer. *)
Definition text_zerfallen : str :=
  join (lit " ") (replicate 12 (lit "zerfallen")).

End Beispiel.

(* ===================================================================== *)
(** ** Further parts of the sources *)
(* ===================================================================== *)

Module PyMehr.

(** [str(z)] for an [int]: the decimal digits, with a minus sign for a
    negative number. *)
Definition str_int (z : Z) : str :=
  lit (DecimalString.NilZero.string_of_int (Z.to_int z)).

(** [text.count(old)]: the number of non-overlapping occurrences found
    from left to right; with an empty [old] Python counts the gaps. *)
Fixpoint count_go (old : str) (skip : nat) (text : str) : nat :=
  match text with
  | [] => 0
  | c :: r =>
    match skip with
    | S k => count_go old k r
    | O =>
      if startswith old text
      then S (count_go old (length old - 1) r)
      else count_go old O r
    end
  end.

Definition count (text old : str) : nat :=
  match old with
  | [] => S (length text)
  | _ :: _ => count_go old O text
  end.

(** The Unicode table behind [str.isspace]. *)
Class Leerraum := { isspace : char -> bool }.

(** [text.split()]: the words between runs of whitespace; [wort] holds
    the characters of the word being read. *)
Fixpoint split_go `{Leerraum} (wort : str) (text : str) : list str :=
  match text with
  | [] =>
    match wort with
    | [] => []
    | _ :: _ => [wort]
    end
  | c :: r =>
    if isspace c
    then match wort with
         | [] => split_go [] r
         | _ :: _ => wort :: split_go [] r
         end
    else split_go (wort ++ [c]) r
  end.

Definition split `{Leerraum} (text : str) : list str := split_go [] text.

End PyMehr.

(* --------------------------------------------------------------------- *)
(** *** More of [WWAQGlossarParser] *)

Module ParserMehr.
Import Re Parser.

(** The result of [validiere_begriff], without its time stamp. *)
Record Begriffsvalidierung := {
  begriff : str;
  gültig : bool;
  hinweise : list str
}.

(** What [re] derives from the Unicode tables for a match under
    [IGNORECASE]: the characters that match the set [[a-zäöü]]. *)
Class IgnoreCase := { klasse_a_z_umlaut : char -> bool }.

(** The literal of a pattern. *)
Definition wort_von (muster : Muster) : str :=
  let 'Wortgrenzen wort := muster in wort.

Section Validiere.
Context `{Runtime} `{IgnoreCase}.

(** A literal letter of [a-z] without special case partners under
    [IGNORECASE]: the letter or its capital. *)
Definition buchstabe (klein c : char) : bool :=
  (c =? klein)%N || (c =? klein - 32)%N.

(** [zer[a-zäöü]+] at the head of [text]. *)
Definition zer_hier (text : str) : bool :=
  match text with
  | z :: e :: r :: x :: _ =>
    buchstabe 122%N z && buchstabe 101%N e && buchstabe 114%N r
    && klasse_a_z_umlaut x
  | _ => false
  end.

(** [re.search(r'\bzer[a-zäöü]+', text, re.IGNORECASE)] finds a match. *)
Fixpoint search_zer_go (prev : option char) (text : str) : bool :=
  match text with
  | [] => false
  | c :: r =>
    at_boundary prev (Some c) && zer_hier text || search_zer_go (Some c) r
  end.

Definition search_zer (text : str) : bool := search_zer_go None text.

Definition ungültig (v : Begriffsvalidierung) (hinweis : string) : Begriffsvalidierung :=
  {| begriff := begriff v; gültig := false; hinweise := hinweise v ++ [lit hinweis] |}.

Definition validiere_begriff (begriff : str) : Begriffsvalidierung :=
  let validierung := {| begriff := begriff; gültig := true; hinweise := [] |} in
  let validierung :=
    if str_in (lit "Kabbala") begriff && negb (str_in (lit "Qabbala") begriff)
    then ungültig validierung "Kabbala sollte als Qabbala geschrieben werden"
    else validierung in
  let validierung :=
    if str_in (lit "Kawana") begriff && negb (str_in (lit "Qawana") begriff)
    then ungültig validierung "Kawana sollte als Qawana geschrieben werden"
    else validierung in
  let validierung :=
    if search_zer begriff
    then ungültig validierung "Destruktive zer-Präfixierung gefunden"
    else validierung in
  validierung.

(** Successive calls of [transformiere] on one parser object, as the
    endpoint of src/parser/api.py makes them on its module-level
    parser. *)
Fixpoint transformiere_folge (self : WWAQGlossarParser) (texte : list str)
    : list (str * list Aenderung) * WWAQGlossarParser :=
  match texte with
  | [] => ([], self)
  | text :: texte =>
    let '(ergebnis, self) := transformiere self text in
    let '(ergebnisse, self) := transformiere_folge self texte in
    (ergebnis :: ergebnisse, self)
  end.

End Validiere.
End ParserMehr.

(* --------------------------------------------------------------------- *)
(** *** More of the Wozu system *)

Module WozuMehr.
Import Wozu Spezifikation.

Section Mehr.
Context `{Runtime} `{Kollaborateure}.

(** [erstelle_wozu_zentrierte_nachricht]; [jetzt] is the time stamp that
    the dataclass takes from the clock. [d.update(z)] gives the keys of
    [z] the values of [z]. *)
Definition erstelle_wozu_zentrierte_nachricht (inhalt wozu sender empfänger : str)
    (zusatz_fragen : option (gmap FrageTyp str)) (jetzt : str) : EchtzeitNachricht :=
  let frage_hierarchie : gmap FrageTyp str := {[ WOZU := wozu ]} in
  let frage_hierarchie :=
    match zusatz_fragen with
    | Some zusatz =>
      if bool_decide (zusatz = ∅) then frage_hierarchie
      else zusatz ∪ frage_hierarchie
    | None => frage_hierarchie
    end in
  {| inhalt := inhalt;
     wozu := wozu;
     sender_modul := sender;
     empfänger_modul := empfänger;
     frage_hierarchie := frage_hierarchie;
     pardes_ebene := None;
     spiral_zeit := None;
     validierung := None;
     zeitstempel := jetzt |}.

(** The arithmetic of [_berechne_azilut_score] for a non-empty purpose,
    on the two counts and on the outcome of the hierarchy lookup. *)
Definition score_aus (wozu_count azilut_count : nat) (in_hierarchie : bool)
    : PyFloat.float :=
  let score := PyFloat.add (PyFloat.of_Z 0) (PyFloat.literal 3 10) in
  let score :=
    PyFloat.add score
      (PyFloat.min (PyFloat.mul (PyFloat.of_nat wozu_count) (PyFloat.literal 1 10))
                   (PyFloat.literal 2 10)) in
  let score :=
    PyFloat.add score
      (PyFloat.min (PyFloat.mul (PyFloat.of_nat azilut_count) (PyFloat.literal 15 100))
                   (PyFloat.literal 3 10)) in
  let score :=
    if in_hierarchie then PyFloat.add score (PyFloat.literal 2 10) else score in
  PyFloat.min score (PyFloat.of_Z 1).

(** Whether a pair of counts is above the threshold of 0.7. *)
Definition über_schwelle (wozu_count azilut_count : nat) (in_hierarchie : bool) : bool :=
  if in_hierarchie
  then (2 <=? azilut_count) || (1 <=? azilut_count) && (1 <=? wozu_count)
  else (2 <=? wozu_count) && (2 <=? azilut_count).

(** The lines of a report that give the distribution of the world
    levels, and those that give the suggestions. *)
Definition weltebenen_zeilen (bericht : list Berichtszeile) : list (Olam * nat) :=
  omap (fun z => match z with B_Weltebene e c => Some (e, c) | _ => None end) bericht.

Definition empfehlungs_zeilen (bericht : list Berichtszeile) : list (str * nat) :=
  omap (fun z => match z with B_Empfehlung e c => Some (e, c) | _ => None end) bericht.

(** The verdicts that the messages of a batch carry. *)
Definition validierungen (nachrichten : list EchtzeitNachricht) : list WozuValidierung :=
  omap validierung nachrichten.

End Mehr.
End WozuMehr.

(* --------------------------------------------------------------------- *)
(** *** The Sod level of src/src/pardes/core/pardes_system.py *)

Module Pardes.
Import Wozu PyMehr.

(** A value of the [metadata] dict. *)
Inductive Metawert :=
  | M_Text (s : str)
  | M_Liste (l : list str).

(** [@dataclass class PardesInterpretation] *)
Record PardesInterpretation := {
  level : PardesLevel;
  text : str;
  interpretation : str;
  gematria : option Z;
  spiral_grade : option Z;
  keywords : list str;
  cross_references : list str;
  metadata : list (str * Metawert)
}.

(** What the module imports or looks up at run time:
    - [gematria_value], from lib/manuscript_processor or the fallback;
    - whether [HNS10SpiralCalculator] could be imported, which decides
      the truth of [self.spiral_calc];
    - [str(e)] for an exception;
    - the processors of the three other levels, on which nothing below
      depends. *)
Class Umgebung := {
  gematria_value : str -> result Z;
  spiral_calc : bool;
  str_exception : Exception -> str;
  pschat_process : str -> result PardesInterpretation;
  remez_process : str -> result PardesInterpretation;
  drasch_process : str -> result PardesInterpretation
}.

Section Sod.
Context `{Leerraum} `{Umgebung}.

(** [PardesProcessor.calculate_spiral_grade] *)
Definition calculate_spiral_grade (text : str) : result (option Z) :=
  if negb spiral_calc then Ok None
  else
    gematria ← gematria_value text;
    let grade := (gematria mod 360)%Z in
    Ok (Some (if (grade =? 0)%Z then 360%Z else grade)).

(** [standard % 9 or 9] *)
Definition mispar_katan (standard : Z) : Z :=
  let rest := (standard mod 9)%Z in
  if (rest =? 0)%Z then 9%Z else rest.

Definition _deep_gematria_analysis (text : str) : result str :=
  standard ← gematria_value text;
  let small := mispar_katan standard in
  let square := (standard ^ 2)%Z in
  Ok (lit "Standard: " ++ str_int standard ++ lit ", Klein: " ++ str_int small
      ++ lit ", Quadrat: " ++ str_int square).

Definition _spiral_time_analysis (text : str) : result str :=
  if negb spiral_calc then Ok []
  else
    grade ← calculate_spiral_grade text;
    match grade with
    | Some grade =>
      if (grade =? 0)%Z then Ok []
      else
        let winding := (grade / 360 + 1)%Z in
        let position := (grade mod 360)%Z in
        Ok (lit "Windung " ++ str_int winding ++ lit ", Position "
            ++ str_int position ++ lit "°")
    | None => Ok []
    end.

(** The reversals of those of the first two words that have at least
    three characters. *)
Definition _letter_permutations (text : str) : list str :=
  let words := split text in
  foldl (fun permutations word =>
           if 3 <=? length word then permutations ++ [rev word] else permutations)
        [] (take 2 words).

Definition _find_hidden_names (text : str) : list str :=
  let hidden :=
    if str_in (lit "יהו") text || str_in (lit "והו") text
    then [lit "72-Namen-Fragment"] else [] in
  foldl (fun hidden perm =>
           if str_in perm text
           then hidden ++ [lit "JHWH-Permutation: " ++ perm] else hidden)
        hidden
        (map lit [ "יהוה"; "יההו"; "יוהה"; "הויה"; "היהו"; "ההיו" ]%string).

Definition GEHEIMNISSE_VERBORGEN : str := lit "Die Geheimnisse bleiben verborgen".

(** [SodProcessor.process] *)
Definition Sod_process (text : str) : result PardesInterpretation :=
  let secrets := [] in
  deep_gematria ← _deep_gematria_analysis text;
  let secrets :=
    match deep_gematria with
    | [] => secrets
    | _ :: _ => secrets ++ [lit "Tiefe Gematria: " ++ deep_gematria]
    end in
  secrets ←
    (if spiral_calc then
       spiral_secrets ← _spiral_time_analysis text;
       match spiral_secrets with
       | [] => Ok secrets
       | _ :: _ => Ok (secrets ++ [lit "Spiralzeit: " ++ spiral_secrets])
       end
     else Ok secrets);
  let permutations := _letter_permutations text in
  let secrets :=
    match permutations with
    | [] => secrets
    | _ :: _ =>
      secrets ++ [lit "Permutationen: " ++ join (lit ", ") (take 3 permutations)]
    end in
  let hidden_names := _find_hidden_names text in
  let secrets :=
    match hidden_names with
    | [] => secrets
    | _ :: _ => secrets ++ [lit "Versteckte Namen: " ++ join (lit ", ") hidden_names]
    end in
  let interpretation :=
    match secrets with
    | [] => GEHEIMNISSE_VERBORGEN
    | _ :: _ => join (lit " | ") secrets
    end in
  gematria ← gematria_value text;
  spiral_grade ← calculate_spiral_grade text;
  Ok {| level := SOD;
        text := text;
        interpretation := interpretation;
        gematria := Some gematria;
        spiral_grade := spiral_grade;
        keywords := hidden_names;
        cross_references := [];
        metadata := [ (lit "secrets", M_Liste secrets) ] |}.

(** [self.processors[level].process] *)
Definition process (level : PardesLevel) : str -> result PardesInterpretation :=
  match level with
  | PSCHAT => pschat_process
  | REMEZ => remez_process
  | DRASCH => drasch_process
  | SOD => Sod_process
  end.

(** [PardesAnalyzer.analyze_text]: the entry of each level; an exception
    of a processor becomes an interpretation that reports it. *)
Definition analyze_text (text : str) (level : PardesLevel) : PardesInterpretation :=
  match process level text with
  | Ok interpretation => interpretation
  | Raise e =>
    {| level := level;
       text := text;
       interpretation := lit "Fehler bei Verarbeitung: " ++ str_exception e;
       gematria := None;
       spiral_grade := None;
       keywords := [];
       cross_references := [];
       metadata := [ (lit "error", M_Text (str_exception e)) ] |}
  end.

End Sod.
End Pardes.

(* --------------------------------------------------------------------- *)
(** *** src/simple_glossar_check.py *)

Module GlossarCheck.
Import PyMehr.

Definition transformations : list (str * str) :=
  [ (lit "zerbrechen", lit "bersten");
    (lit "zerstören", lit "wandeln");
    (lit "verschwinden", lit "schwinden");
    (lit "Kabbala", lit "Qabbala");
    (lit "Kawana", lit "Qawana");
    (lit "WWAK", lit "WWAQ") ].

(** One reported violation; the source renders it as
    [f"{old} ({count}x) → {new}"]. *)
Record Verstoss := { alt : str; anzahl : nat; neu : str }.

Definition meldung (v : Verstoss) : str :=
  alt v ++ lit " (" ++ str_int (Z.of_nat (anzahl v)) ++ lit "x) → " ++ neu v.

(** The loop of [check_file] over the table, on the content read from
    the file. *)
Definition violations (content : str) : list Verstoss :=
  foldl (fun violations '(old, new) =>
           if str_in old content
           then violations ++ [ {| alt := old; anzahl := count content old; neu := new |} ]
           else violations)
        [] transformations.

Definition check_file (content : str) : list str :=
  map meldung (violations content).

End GlossarCheck.

(* --------------------------------------------------------------------- *)
(** *** More concrete inputs *)

Module BeispielMehr.
Import Wozu Parser PyMehr ParserMehr Pardes Beispiel.

(** ASCII white space, and the letters that match [[a-zäöü]] without
    regard to case among those of Latin-1. *)
Definition leerraum : Leerraum :=
  {| isspace := fun c => ((c =? 32) || (9 <=? c) && (c <=? 13))%N |}.

Definition ignorecase : IgnoreCase :=
  {| klasse_a_z_umlaut := fun c =>
       ((97 <=? c) && (c <=? 122) || (65 <=? c) && (c <=? 90)
        || (c =? 228) || (c =? 246) || (c =? 252)
        || (c =? 196) || (c =? 214) || (c =? 220))%N |}.

(** The fallback [gematria_value] on text without letters outside ASCII:
    the sum of the code points of its letters. *)
Definition gematria_ascii (text : str) : result Z :=
  Ok (foldl (fun s c => if ((65 <=? c) && (c <=? 90) || (97 <=? c) && (c <=? 122))%N
                        then (s + Z.of_N c)%Z else s) 0%Z text).

Definition umgebung : Umgebung :=
  {| gematria_value := gematria_ascii;
     spiral_calc := true;
     str_exception := fun _ => lit "Fehler";
     pschat_process := fun _ => Raise (Fremd "ValueError");
     remez_process := fun _ => Raise (Fremd "ValueError");
     drasch_process := fun _ => Raise (Fremd "ValueError") |}.

(** A queue with three messages for module A. *)
Definition queue_A_A_A : list (@EchtzeitNachricht kollaborateure) :=
  [ für_A; nachricht "zweite" "um zu senden" "A" ∅; für_A ].

End BeispielMehr.


(* ===================================================================== *)
(** ** Properties of the validator and of [sende_nachricht] *)
(* ===================================================================== *)

Import Wozu Parser Spezifikation.

Section Validator.
Context `{Runtime} `{Kollaborateure}.

Lemma getattr_weltebene (n : EchtzeitNachricht) :
  getattr n "weltebene" = Raise (AttributeError "weltebene").
Proof. reflexivity. Qed.

Lemma _finde_fehlende_aspekte_raises (n : EchtzeitNachricht) :
  _finde_fehlende_aspekte n = Raise (AttributeError "weltebene").
Proof.
  unfold _finde_fehlende_aspekte. rewrite getattr_weltebene. reflexivity.
Qed.

(** With a purpose, the outcome is the exception of the world-level
    collaborator if it raises, and the [AttributeError] otherwise. *)
Lemma validiere_mit_wozu (n : EchtzeitNachricht) :
  wozu n <> [] ->
  validiere_wozu_zentrierung n =
    match erkenne_weltebene (inhalt n) with
    | Ok _ => Raise (AttributeError "weltebene")
    | Raise e => Raise e
    end.
Proof.
  intros Hw. unfold validiere_wozu_zentrierung, _erkenne_weltebene.
  destruct (wozu n) as [|c w]; [congruence|].
  rewrite _finde_fehlende_aspekte_raises.
  destruct (erkenne_weltebene (inhalt n)); reflexivity.
Qed.

Lemma validiere_ohne_wozu (n : EchtzeitNachricht) :
  wozu n = [] ->
  validiere_wozu_zentrierung n =
    Ok {| ist_verankert := false;
          azilut_score := PyFloat.of_Z 0;
          fehlende_wozu_aspekte := [KEIN_WOZU];
          empfohlene_korrekturen := [DEFINIERE_ZWECK];
          weltebene := ASIJA |}.
Proof. intros Hw. unfold validiere_wozu_zentrierung. rewrite Hw. reflexivity. Qed.

(** Every verdict that is returned is the one of the short path. *)
Lemma validiere_Ok_inv (n : EchtzeitNachricht) (v : WozuValidierung) :
  validiere_wozu_zentrierung n = Ok v ->
  wozu n = [] /\
  v = {| ist_verankert := false;
         azilut_score := PyFloat.of_Z 0;
         fehlende_wozu_aspekte := [KEIN_WOZU];
         empfohlene_korrekturen := [DEFINIERE_ZWECK];
         weltebene := ASIJA |}.
Proof.
  intros Hv. destruct (wozu n) as [|c w] eqn:Hw.
  - rewrite (validiere_ohne_wozu n Hw) in Hv. split; congruence.
  - rewrite validiere_mit_wozu in Hv by congruence.
    destruct (erkenne_weltebene (inhalt n)); discriminate.
Qed.

Lemma _generiere_korrekturen_last (fehlende : list str) :
  last (_generiere_korrekturen fehlende) = Some WWAQ_HINWEIS.
Proof. unfold _generiere_korrekturen. apply last_snoc. Qed.

Lemma _generiere_korrekturen_nonempty (fehlende : list str) :
  _generiere_korrekturen fehlende <> [].
Proof.
  intros Hnil. pose proof (_generiere_korrekturen_last fehlende) as Hl.
  rewrite Hnil in Hl. discriminate.
Qed.

(** The shape of a verdict of the long path, whatever the two fallible
    steps give. *)
Lemma validiere_Ok_lang (n : EchtzeitNachricht) (v : WozuValidierung) :
  wozu n <> [] ->
  validiere_wozu_zentrierung n = Ok v ->
  ist_verankert v = PyFloat.gt (azilut_score v) (PyFloat.literal 7 10)
  /\ azilut_score v = _berechne_azilut_score n
  /\ empfohlene_korrekturen v = _generiere_korrekturen (fehlende_wozu_aspekte v).
Proof.
  intros Hw Hv. unfold validiere_wozu_zentrierung in Hv.
  destruct (wozu n) as [|c w]; [congruence|].
  destruct (_erkenne_weltebene n) as [o|e]; [|discriminate].
  destruct (_finde_fehlende_aspekte n) as [f|e]; [|discriminate].
  cbn in Hv. injection Hv as <-. repeat split; reflexivity.
Qed.

Lemma validiere_korrekturen_nonempty (n : EchtzeitNachricht) (v : WozuValidierung) :
  validiere_wozu_zentrierung n = Ok v -> empfohlene_korrekturen v <> [].
Proof.
  intros Hv. destruct (wozu n) as [|c w] eqn:Hw.
  - rewrite (validiere_ohne_wozu n Hw) in Hv. injection Hv as <-. discriminate.
  - destruct (validiere_Ok_lang n v) as (_ & _ & ->); [congruence|assumption|].
    apply _generiere_korrekturen_nonempty.
Qed.

Lemma validiere_verankert_gt (n : EchtzeitNachricht) (v : WozuValidierung) :
  validiere_wozu_zentrierung n = Ok v ->
  ist_verankert v = PyFloat.gt (azilut_score v) (PyFloat.literal 7 10).
Proof.
  intros Hv. destruct (wozu n) as [|c w] eqn:Hw.
  - rewrite (validiere_ohne_wozu n Hw) in Hv. injection Hv as <-. reflexivity.
  - apply (validiere_Ok_lang n v); [congruence|assumption].
Qed.

(** [sende_nachricht] on a verdict that is not anchored. *)
Lemma sende_nachricht_nicht_verankert (self : EchtzeitKommunikator)
    (n : EchtzeitNachricht) (out : list Zeile) (v : WozuValidierung) :
  validiere_wozu_zentrierung (normalisiere n) = Ok v ->
  ist_verankert v = false ->
  exists empfehlung,
    empfohlene_korrekturen v !! 0 = Some empfehlung /\
    sende_nachricht self n out =
      (Ok false,
       {| objekt := set_validierung (normalisiere n) v;
          komm := self;
          stdout := out ++ [ Warnung_nicht_verankert;
                             Warnung_score (azilut_score v);
                             Warnung_fehlend (join (lit ", ") (fehlende_wozu_aspekte v));
                             Warnung_empfehlung empfehlung ] |}).
Proof.
  intros Hv Ha.
  pose proof (validiere_korrekturen_nonempty _ _ Hv) as Hne.
  destruct (empfohlene_korrekturen v) as [|k ks] eqn:Hk; [congruence|].
  exists k. split; [reflexivity|].
  unfold sende_nachricht. cbv zeta. rewrite Hv, Ha. unfold negb. rewrite Hk.
  change ((k :: ks) !! 0) with (Some k). cbv iota.
  rewrite <- app_assoc. reflexivity.
Qed.

(** The queue changes only when [sende_nachricht] answers [True]. *)
Lemma sende_nachricht_queue (self : EchtzeitKommunikator)
    (n : EchtzeitNachricht) (out : list Zeile) :
  (sende_nachricht self n out).1 <> Ok true ->
  komm (sende_nachricht self n out).2 = self.
Proof.
  unfold sende_nachricht.
  destruct (validiere_wozu_zentrierung (normalisiere n)) as [v|e]; [|reflexivity].
  destruct (ist_verankert v); unfold negb.
  - destruct current_spiral_time; intros Hr; [|reflexivity].
    exfalso. apply Hr. reflexivity.
  - destruct (empfohlene_korrekturen v !! 0); reflexivity.
Qed.

End Validator.

Section Behauptungen_Validator.
Context `{Runtime} `{Kollaborateure}.

(** C1 (defect of the code). The specification says that validation of
    a message with a non-empty purpose returns a verdict and never
    raises. In the code the computation of the missing aspects reads
    the attribute [weltebene] of the message, which the message class
    does not have: for every message with a non-empty purpose
    [_finde_fehlende_aspekte] raises, [validiere_wozu_zentrierung]
    returns no verdict, and when the world-level collaborator answers
    the exception is that [AttributeError]. *)
Theorem validiere_wozu_zentrierung_raises (n : EchtzeitNachricht) :
  wozu n <> [] ->
  returns (_finde_fehlende_aspekte n) = false
  /\ returns (validiere_wozu_zentrierung n) = false
  /\ (forall w, erkenne_weltebene (inhalt n) = Ok w ->
        validiere_wozu_zentrierung n = Raise (AttributeError "weltebene")).
Proof.
  intros Hw. split; [|split].
  - rewrite _finde_fehlende_aspekte_raises. reflexivity.
  - rewrite validiere_mit_wozu by assumption.
    destruct (erkenne_weltebene (inhalt n)); reflexivity.
  - intros w Hk. rewrite validiere_mit_wozu by assumption.
    rewrite Hk. reflexivity.
Qed.


(** C8. When the verdict of the normalised message is not anchored,
    [sende_nachricht] prints the warning with the score, the joined list
    of all missing aspects and the first suggestion, answers [False] and
    leaves the queue as it was; and whenever it does not answer [True],
    for any message, the communicator is unchanged. *)
Theorem sende_nachricht_blockiert (self : EchtzeitKommunikator)
    (n : EchtzeitNachricht) (out : list Zeile) (v : WozuValidierung) :
  validiere_wozu_zentrierung (normalisiere n) = Ok v ->
  ist_verankert v = false ->
  (exists empfehlung,
     empfohlene_korrekturen v !! 0 = Some empfehlung /\
     sende_nachricht self n out =
       (Ok false,
        {| objekt := set_validierung (normalisiere n) v;
           komm := self;
           stdout := out ++ [ Warnung_nicht_verankert;
                              Warnung_score (azilut_score v);
                              Warnung_fehlend
                                (join (lit ", ") (fehlende_wozu_aspekte v));
                              Warnung_empfehlung empfehlung ] |}))
  /\ nachrichten_queue (komm (sende_nachricht self n out).2) = nachrichten_queue self
  /\ (forall self' n' out',
        (sende_nachricht self' n' out').1 <> Ok true ->
        komm (sende_nachricht self' n' out').2 = self').
Proof.
  intros Hv Ha.
  destruct (sende_nachricht_nicht_verankert self n out v Hv Ha) as (k & Hk & Hs).
  split; [|split].
  - exists k. split; assumption.
  - rewrite Hs. reflexivity.
  - apply sende_nachricht_queue.
Qed.

(** C9 (amended). The list of suggestions built by
    [_generiere_korrekturen] ends with the reminder for every list of
    missing aspects; it is computed from the missing aspects alone, so
    the score plays no part. Every verdict returned for a message with a
    non-empty purpose takes its suggestions from it. The verdict for an
    empty purpose carries the single suggestion to state a purpose,
    without the reminder. *)
Theorem hinweis_am_ende :
  (forall fehlende, last (_generiere_korrekturen fehlende) = Some WWAQ_HINWEIS)
  /\ (forall n v, wozu n <> [] -> validiere_wozu_zentrierung n = Ok v ->
        empfohlene_korrekturen v = _generiere_korrekturen (fehlende_wozu_aspekte v)
        /\ last (empfohlene_korrekturen v) = Some WWAQ_HINWEIS)
  /\ (forall n v, wozu n = [] -> validiere_wozu_zentrierung n = Ok v ->
        empfohlene_korrekturen v = [DEFINIERE_ZWECK]).
Proof.
  split; [|split].
  - apply _generiere_korrekturen_last.
  - intros n v Hw Hv.
    destruct (validiere_Ok_lang n v Hw Hv) as (_ & _ & Hk).
    split; [assumption|]. rewrite Hk. apply _generiere_korrekturen_last.
  - intros n v Hw Hv. rewrite (validiere_ohne_wozu n Hw) in Hv.
    injection Hv as <-. reflexivity.
Qed.

(** C10. Every verdict that validation returns has at least one
    suggestion, so its first suggestion can be read;
    [_generiere_korrekturen] never gives the empty list; and on a
    rejection [sende_nachricht] gets past that read and answers
    [False]. *)
Theorem korrekturen_nie_leer :
  (forall n v, validiere_wozu_zentrierung n = Ok v ->
     empfohlene_korrekturen v <> [] /\ is_Some (empfohlene_korrekturen v !! 0))
  /\ (forall fehlende, _generiere_korrekturen fehlende <> [])
  /\ (forall self n out v,
        validiere_wozu_zentrierung (normalisiere n) = Ok v ->
        ist_verankert v = false ->
        (sende_nachricht self n out).1 = Ok false).
Proof.
  split; [|split].
  - intros n v Hv. pose proof (validiere_korrekturen_nonempty n v Hv) as Hne.
    split; [assumption|].
    destruct (empfohlene_korrekturen v) as [|k ks]; [congruence|].
    exists k. reflexivity.
  - apply _generiere_korrekturen_nonempty.
  - intros self n out v Hv Ha.
    destruct (sende_nachricht_nicht_verankert self n out v Hv Ha) as (k & _ & ->).
    reflexivity.
Qed.

End Behauptungen_Validator.

(* ===================================================================== *)
(** ** The score *)
(* ===================================================================== *)

Section Behauptungen_Score.
Context `{Runtime} `{Kollaborateure}.

Lemma indicators_found_le (n : EchtzeitNachricht) : indicators_found n <= 9.
Proof. unfold indicators_found. apply filter_length_le. Qed.

Lemma markers_found_le (n : EchtzeitNachricht) : markers_found n <= 6.
Proof. unfold markers_found. apply filter_length_le. Qed.

(** Splits a bounded natural number into its possible values. *)
Tactic Notation "bis" integer(n) ident(k) "mit" tactic3(tac) :=
  do n (destruct k as [|k]; [tac|]); exfalso; lia.

(** The code's sum and the sum of the specification, the bounds, the
    distance to the exact decimal sum and the agreement of the two
    thresholds, over all values the two counts can take. *)
Lemma _berechne_azilut_score_eigenschaften (n : EchtzeitNachricht) :
  wozu n <> [] ->
  _berechne_azilut_score n = spec_score n
  /\ PyFloat.leb (PyFloat.of_Z 0) (_berechne_azilut_score n) = true
  /\ PyFloat.leb (_berechne_azilut_score n) (PyFloat.of_Z 1) = true
  /\ (spec_score_Q n - (1 # 2 ^ 52) <= PyFloat.to_Q (_berechne_azilut_score n)
      <= spec_score_Q n + (1 # 2 ^ 52))%Q
  /\ PyFloat.gt (_berechne_azilut_score n) (PyFloat.literal 7 10)
     = negb (Qle_bool (spec_score_Q n) (7 # 10)).
Proof.
  intros Hw.
  pose proof (indicators_found_le n) as Hk.
  pose proof (markers_found_le n) as Hm.
  unfold _berechne_azilut_score, spec_score, spec_score_Q, count_if.
  fold (indicators_found n). fold (markers_found n).
  destruct (wozu n) as [|c w]; [congruence|].
  generalize dependent (markers_found n). intros m Hm.
  generalize dependent (indicators_found n). intros k Hk.
  destruct (dict_in WOZU (frage_hierarchie n)).
  - bis 10 k mit (bis 7 m mit (
      split; [vm_compute; reflexivity|];
      split; [vm_compute; reflexivity|];
      split; [vm_compute; reflexivity|];
      split; [split; apply Qle_bool_imp_le; vm_compute; reflexivity|];
      vm_compute; reflexivity)).
  - bis 10 k mit (bis 7 m mit (
      split; [vm_compute; reflexivity|];
      split; [vm_compute; reflexivity|];
      split; [vm_compute; reflexivity|];
      split; [split; apply Qle_bool_imp_le; vm_compute; reflexivity|];
      vm_compute; reflexivity)).
Qed.


(** Without a purpose the score stays at or below the threshold: the
    three remaining contributions add up to 0.7 at most. *)
Lemma _berechne_azilut_score_ohne_wozu (n : EchtzeitNachricht) :
  wozu n = [] ->
  PyFloat.gt (_berechne_azilut_score n) (PyFloat.literal 7 10) = false.
Proof.
  intros Hw.
  pose proof (indicators_found_le n) as Hk.
  pose proof (markers_found_le n) as Hm.
  unfold _berechne_azilut_score, count_if.
  fold (indicators_found n). fold (markers_found n).
  destruct (wozu n) as [|c w]; [|discriminate].
  generalize dependent (markers_found n). intros m Hm.
  generalize dependent (indicators_found n). intros k Hk.
  destruct (dict_in WOZU (frage_hierarchie n)).
  - bis 10 k mit (bis 7 m mit (vm_compute; reflexivity)).
  - bis 10 k mit (bis 7 m mit (vm_compute; reflexivity)).
Qed.

(** C6 (defect of the code). The specification says that a message is
    anchored, and accepted, exactly when its score is strictly above
    0.7, and that a message scoring exactly 0.70 is rejected. The code
    has that comparison, [azilut_score > 0.7], and it is strict, also
    against the exact decimal sum; but it is reached only after
    [_finde_fehlende_aspekte], which raises for every message with a
    purpose (the defect of C1). So a message whose score is above 0.7
    has a purpose and gets no verdict: validation ends with an
    exception, [sende_nachricht] ends with an exception and puts
    nothing on the queue, and no verdict that validation returns is
    anchored. A message with a purpose whose score is exactly 0.7 is
    not above the threshold, and it is not answered with [False]
    either: the call ends with the same exception. *)
Theorem verankerung_ohne_urteil (n : EchtzeitNachricht) :
  PyFloat.gt (_berechne_azilut_score n) (PyFloat.literal 7 10) = true ->
  wozu n <> []
  /\ returns (validiere_wozu_zentrierung n) = false
  /\ (forall w, erkenne_weltebene (inhalt n) = Ok w ->
        validiere_wozu_zentrierung n = Raise (AttributeError "weltebene"))
  /\ (forall self n0 out, normalisiere n0 = n ->
        returns (sende_nachricht self n0 out).1 = false
        /\ komm (sende_nachricht self n0 out).2 = self)
  /\ (forall n' v, validiere_wozu_zentrierung n' = Ok v -> ist_verankert v = false)
  /\ (forall n', wozu n' <> [] ->
        _berechne_azilut_score n' = PyFloat.literal 7 10 ->
        PyFloat.gt (_berechne_azilut_score n') (PyFloat.literal 7 10) = false
        /\ returns (validiere_wozu_zentrierung n') = false
        /\ (forall self n0 out, normalisiere n0 = n' ->
              (sende_nachricht self n0 out).1 <> Ok false))
  /\ (forall n', wozu n' <> [] ->
        PyFloat.gt (_berechne_azilut_score n') (PyFloat.literal 7 10)
        = negb (Qle_bool (spec_score_Q n') (7 # 10))).
Proof.
  intros Hgt.
  assert (Hw : wozu n <> []).
  { intros Hw. rewrite (_berechne_azilut_score_ohne_wozu n Hw) in Hgt. discriminate. }
  split; [assumption|]. split; [|split; [|split; [|split; [|split]]]].
  - rewrite validiere_mit_wozu by assumption.
    destruct (erkenne_weltebene (inhalt n)); reflexivity.
  - intros w Hk. rewrite validiere_mit_wozu by assumption.
    rewrite Hk. reflexivity.
  - intros self n0 out Hn. subst n. unfold sende_nachricht. cbv zeta.
    rewrite validiere_mit_wozu by assumption.
    destruct (erkenne_weltebene _); split; reflexivity.
  - intros n' v Hv. destruct (validiere_Ok_inv n' v Hv) as [_ ->]. reflexivity.
  - intros n' Hw' Hs. split; [|split].
    + rewrite Hs. vm_compute. reflexivity.
    + rewrite validiere_mit_wozu by assumption.
      destruct (erkenne_weltebene (inhalt n')); reflexivity.
    + intros self n0 out Hn. subst n'. unfold sende_nachricht. cbv zeta.
      rewrite validiere_mit_wozu by assumption.
      destruct (erkenne_weltebene _); discriminate.
  - intros n' Hw'.
    destruct (_berechne_azilut_score_eigenschaften n' Hw') as (_ & _ & _ & _ & Hg).
    assumption.
Qed.

End Behauptungen_Score.

(* ===================================================================== *)
(** ** The report and the shared queue *)
(* ===================================================================== *)

Section Behauptungen_Kommunikator.
Context `{Runtime} `{Kollaborateure}.

(** C4 (defect of the code). The specification asks for a defined
    result on an empty sequence and for no division by zero. The code
    divides the sum of the scores by the number of messages without
    looking at it: on the empty sequence the report raises
    [ZeroDivisionError]; on every other sequence it returns. *)
Theorem generiere_wozu_bericht_leer :
  generiere_wozu_bericht [] = Raise ZeroDivisionError
  /\ (forall nachrichten, nachrichten <> [] ->
        returns (generiere_wozu_bericht nachrichten) = true).
Proof.
  split; [reflexivity|].
  intros [|n l] Hne; [congruence|]. reflexivity.
Qed.

Lemma nachrichten_für_app (modul : str) (q1 q2 : list EchtzeitNachricht) :
  nachrichten_für modul (q1 ++ q2) = nachrichten_für modul q1 ++ nachrichten_für modul q2.
Proof. apply List.filter_app. Qed.

(** One request: the messages in front of the one that is yielded are
    taken off the queue, and none of them is for the module. *)
Lemma anext_spec (modul : str) (queue : list EchtzeitNachricht) :
  match anext modul queue with
  | (Some n, rest) =>
    exists weg, queue = weg ++ n :: rest
                /\ nachrichten_für modul weg = []
                /\ empfänger_modul n = modul
  | (None, rest) => rest = [] /\ nachrichten_für modul queue = []
  end.
Proof.
  induction queue as [|x q IH]; cbn [anext].
  - split; reflexivity.
  - destruct (bool_decide (empfänger_modul x = modul)) eqn:Hx.
    + exists []. apply bool_decide_eq_true in Hx. repeat split; assumption.
    + destruct (anext modul q) as [[n|] rest].
      * destruct IH as (weg & -> & Hweg & Hn).
        exists (x :: weg). split; [reflexivity|]. split; [|assumption].
        unfold nachrichten_für in *. cbn [List.filter]. rewrite Hx. assumption.
      * destruct IH as [-> Hq]. split; [reflexivity|].
        unfold nachrichten_für in *. cbn [List.filter]. rewrite Hx. assumption.
Qed.

Lemma nachrichten_für_cons_eq (modul : str) (n : EchtzeitNachricht)
    (q : list EchtzeitNachricht) :
  empfänger_modul n = modul ->
  nachrichten_für modul (n :: q) = n :: nachrichten_für modul q.
Proof.
  intros Hn. unfold nachrichten_für. cbn [List.filter].
  rewrite bool_decide_eq_true_2 by assumption. reflexivity.
Qed.

Lemma empfange_nachrichten_spec (k : nat) (modul : str) :
  forall queue : list EchtzeitNachricht,
    (empfange_nachrichten k modul queue).1 = take k (nachrichten_für modul queue)
    /\ exists entnommen,
         queue = entnommen ++ (empfange_nachrichten k modul queue).2
         /\ nachrichten_für modul entnommen = (empfange_nachrichten k modul queue).1
         /\ (length (empfange_nachrichten k modul queue).1 < k ->
             (empfange_nachrichten k modul queue).2 = []).
Proof.
  induction k as [|k IH]; intros queue; cbn [empfange_nachrichten].
  - split; [reflexivity|]. exists []. cbn. repeat split. lia.
  - pose proof (anext_spec modul queue) as Ha.
    destruct (anext modul queue) as [[n|] rest].
    + destruct Ha as (weg & -> & Hweg & Hn).
      specialize (IH rest).
      destruct (empfange_nachrichten k modul rest) as [aus q'].
      cbn [fst snd] in *. destruct IH as (Haus & ent & Hrest & Hent & Hleer).
      rewrite nachrichten_für_app, Hweg, nachrichten_für_cons_eq by assumption.
      cbn [app take]. split; [congruence|].
      exists (weg ++ n :: ent). split; [|split].
      * rewrite Hrest at 1. rewrite <- app_assoc. reflexivity.
      * rewrite nachrichten_für_app, Hweg, nachrichten_für_cons_eq by assumption.
        cbn [app]. congruence.
      * cbn [length]. intros Hl. apply Hleer. lia.
    + destruct Ha as [-> Hq]. cbn [fst snd]. rewrite Hq. split; [reflexivity|].
      exists queue. split; [symmetry; apply app_nil_r|]. split; [assumption|].
      reflexivity.
Qed.

(** C2 (amended). There is one queue for all modules. A consumer of
    module B that asks for up to [kB] messages gets the first [kB]
    messages addressed to B, in the order of the queue, and no message
    of another module; the messages it took off the queue on the way are
    gone, those of other modules included, and what is left is a tail of
    the queue. A consumer of module A that comes next gets the first
    [kA] messages for A of that tail only; when the consumer of B asked
    for more than the queue held for it, the queue is empty and A gets
    nothing. *)
Theorem empfange_nachrichten_gemeinsame_queue (kB kA : nat) (A B : str)
    (queue : list EchtzeitNachricht) :
  let erst := empfange_nachrichten kB B queue in
  let dann := empfange_nachrichten kA A erst.2 in
  erst.1 = take kB (nachrichten_für B queue)
  /\ (exists entnommen,
        queue = entnommen ++ erst.2 /\ nachrichten_für B entnommen = erst.1)
  /\ dann.1 = take kA (nachrichten_für A erst.2)
  /\ (length erst.1 < kB -> erst.2 = [] /\ dann.1 = []).
Proof.
  intros erst dann. subst erst dann.
  destruct (empfange_nachrichten_spec kB B queue) as (HB & ent & Hq & Hent & Hleer).
  destruct (empfange_nachrichten_spec kA A (empfange_nachrichten kB B queue).2)
    as (HA & _).
  split; [assumption|]. split; [exists ent; split; assumption|].
  split; [assumption|].
  intros Hl. specialize (Hleer Hl). split; [assumption|].
  rewrite HA, Hleer. destruct kA; reflexivity.
Qed.

End Behauptungen_Kommunikator.

(* ===================================================================== *)
(** ** The change log of the parser *)
(* ===================================================================== *)

Section Behauptungen_Parser.
Context `{Runtime}.
Import Re.

Lemma startswith_take (p s : str) :
  startswith p s = true -> take (length p) s = p.
Proof.
  revert s. induction p as [|a p IH]; intros [|b s] Hp; cbn in *;
    try reflexivity; try discriminate.
  apply andb_true_iff in Hp as [Hab Hp].
  apply N.eqb_eq in Hab. subst b. f_equal. apply IH. assumption.
Qed.

Lemma match_here_take (wort : str) (prev : option char) (text : str) :
  match_here wort prev text = true -> take (length wort) text = wort.
Proof.
  unfold match_here. intros Hm.
  apply andb_true_iff in Hm as [Hm _]. apply andb_true_iff in Hm as [_ Hm].
  apply startswith_take. assumption.
Qed.

(** Every match stands where the literal stands in the scanned text. *)
Lemma finditer_go_spec (wort : str) (text : str) :
  forall (prev : option char) (pos skip : nat) (pre : str) (m : Match),
    length pre = pos ->
    m ∈ finditer_go wort prev pos skip text ->
    m_group m = wort
    /\ m_end m = m_start m + length wort
    /\ slice (pre ++ text) (m_start m) (m_end m) = wort.
Proof.
  induction text as [|c r IH]; intros prev pos skip pre m Hpre Hin.
  - cbn [finditer_go] in Hin. destruct skip; [|inversion Hin].
    destruct (match_here wort prev []) eqn:Hm; [|inversion Hin].
    apply list_elem_of_singleton in Hin. subst m. cbn [m_group m_start m_end].
    split; [reflexivity|]. split; [reflexivity|].
    unfold slice. replace (pos + length wort - pos) with (length wort) by lia.
    rewrite drop_app_length' by (symmetry; assumption).
    apply (match_here_take wort prev). assumption.
  - cbn [finditer_go] in Hin.
    assert (Hrec : forall prev' skip',
               m ∈ finditer_go wort prev' (S pos) skip' r ->
               m_group m = wort
               /\ m_end m = m_start m + length wort
               /\ slice (pre ++ c :: r) (m_start m) (m_end m) = wort).
    { intros prev' skip' Hin'.
      replace (pre ++ c :: r) with ((pre ++ [c]) ++ r)
        by (rewrite <- app_assoc; reflexivity).
      apply (IH prev' (S pos) skip'); [|assumption].
      rewrite length_app. cbn. lia. }
    destruct skip as [|k]; [|apply (Hrec _ _ Hin)].
    destruct (match_here wort prev (c :: r)) eqn:Hm; [|apply (Hrec _ _ Hin)].
    apply elem_of_cons in Hin as [->|Hin]; [|apply (Hrec _ _ Hin)].
    cbn [m_group m_start m_end].
    split; [reflexivity|]. split; [reflexivity|].
    unfold slice. replace (pos + length wort - pos) with (length wort) by lia.
    rewrite drop_app_length' by (symmetry; assumption).
    apply (match_here_take wort prev). assumption.
Qed.

Lemma finditer_spec (muster : Muster) (text : str) (m : Match) :
  m ∈ finditer muster text ->
  m_end m = m_start m + length (m_group m)
  /\ slice text (m_start m) (m_end m) = m_group m.
Proof.
  destruct muster as [wort]. cbn [finditer]. intros Hin.
  destruct (finditer_go_spec wort text None 0 0 [] m eq_refl Hin) as (-> & He & Hs).
  split; assumption.
Qed.

(** The nested loops visit the rules in the order of [regelfolge]. *)
Lemma foldl_kategorie_schritt (t : Transformationen) :
  forall zustand,
    foldl kategorie_schritt zustand t = foldl schritt zustand (regelfolge t).
Proof.
  induction t as [|[kat regeln] t IH]; intros zustand; [reflexivity|].
  cbn [foldl regelfolge flat_map]. rewrite foldl_app, IH. f_equal.
  unfold kategorie_schritt. clear IH. revert zustand.
  induction regeln as [|r regeln IHr]; intros zustand; [reflexivity|].
  cbn [foldl map]. rewrite IHr. reflexivity.
Qed.

(** Where an entry of the log comes from: it was there before, or one
    rule wrote it for one match in the text that the earlier rules left. *)
Lemma foldl_schritt_log (rules : list (str * (Muster * str))) :
  forall (zustand : str * list Aenderung) (a : Aenderung),
    a ∈ (foldl schritt zustand rules).2 ->
    a ∈ zustand.2
    \/ exists vor kat muster neu nach m,
         rules = vor ++ (kat, (muster, neu)) :: nach
         /\ m ∈ finditer muster (foldl schritt zustand vor).1
         /\ a = eintrag kat neu (sub muster neu (foldl schritt zustand vor).1) m.
Proof.
  induction rules as [|[kat [muster neu]] rules IH]; intros zustand a Hin.
  - left. assumption.
  - cbn [foldl] in Hin. apply IH in Hin as [Hin|Hin].
    + destruct zustand as [text log].
      unfold schritt, regel_schritt in Hin. cbn [fst snd] in Hin.
      destruct (finditer muster text) as [|m0 ms] eqn:Hm; [left; assumption|].
      cbn [snd] in Hin. apply elem_of_app in Hin as [Hin|Hin]; [left; assumption|].
      right. apply list_elem_of_In, in_map_iff in Hin as (m & <- & Hin).
      exists [], kat, muster, neu, rules, m. cbn [foldl fst app].
      split; [reflexivity|]. split; [|reflexivity].
      rewrite Hm. apply list_elem_of_In. assumption.
    + right. destruct Hin as (vor & kat' & muster' & neu' & nach & m & -> & Hm & ->).
      exists ((kat, (muster, neu)) :: vor), kat', muster', neu', nach, m.
      split; [reflexivity|]. split; [assumption|reflexivity].
Qed.

Lemma transformiere_text (self : WWAQGlossarParser) (text : str) :
  (transformiere self text).1.1 = zwischentext (regelfolge (transformationen self)) text.
Proof.
  unfold transformiere, zwischentext. destruct text as [|c text].
  - cbn [fst]. generalize (regelfolge (transformationen self)).
    intros rules. induction rules as [|[kat [[wort] neu]] rules IH]; [reflexivity|].
    cbn [foldl]. unfold schritt at 2, regel_schritt. cbn [fst snd finditer finditer_go].
    unfold match_here. cbn [head startswith].
    destruct wort as [|w wort]; cbn [startswith]; rewrite ?andb_false_r; cbn [andb].
    + unfold at_boundary. cbn [word_at last]. cbn. assumption.
    + assumption.
  - rewrite <- foldl_kategorie_schritt.
    destruct (foldl kategorie_schritt _ (transformationen self)).
    reflexivity.
Qed.

Lemma transformiere_log (self : WWAQGlossarParser) (text : str) :
  (transformiere self text).1.2
  = match text with
    | [] => []
    | _ :: _ => (foldl schritt (text, []) (regelfolge (transformationen self))).2
    end.
Proof.
  unfold transformiere. destruct text as [|c text]; [reflexivity|].
  rewrite <- foldl_kategorie_schritt.
  destruct (foldl kategorie_schritt _ (transformationen self)).
  reflexivity.
Qed.

(** C3 (amended). Every change record was written by one rule for one
    match in the intermediate text, that is the input as rewritten by
    the rules before that rule: [position] is the offset of the matched
    token in that intermediate text, where the token stands, and is not
    recomputed against the text returned, which is the text after the
    last rule. *)
Theorem aenderung_am_zwischentext (self : WWAQGlossarParser) (text : str)
    (a : Aenderung) :
  a ∈ (transformiere self text).1.2 ->
  exists vor kat muster neu nach,
    regelfolge (transformationen self) = vor ++ (kat, (muster, neu)) :: nach
    /\ kategorie a = kat
    /\ ersatz a = neu
    /\ (exists m, m ∈ finditer muster (zwischentext vor text)
                  /\ m_start m = position a /\ m_group m = original a)
    /\ slice (zwischentext vor text) (position a) (position a + length (original a))
       = original a
    /\ (transformiere self text).1.1
       = zwischentext (regelfolge (transformationen self)) text.
Proof.
  intros Hin. rewrite transformiere_log in Hin.
  destruct text as [|c text]; [inversion Hin|].
  apply foldl_schritt_log in Hin as [Hin|Hin]; [inversion Hin|].
  destruct Hin as (vor & kat & muster & neu & nach & m & Hr & Hm & ->).
  fold (zwischentext vor (c :: text)) in Hm |- *.
  destruct (finditer_spec muster _ m Hm) as [He Hs].
  exists vor, kat, muster, neu, nach. cbn [eintrag kategorie ersatz position original kontext].
  split; [assumption|]. split; [reflexivity|]. split; [reflexivity|].
  split; [exists m; repeat split; assumption|].
  split; [rewrite <- He; assumption|].
  apply transformiere_text.
Qed.

End Behauptungen_Parser.

(* ===================================================================== *)
(** ** The theorems at concrete inputs *)
(* ===================================================================== *)

Section Belege.
Import Beispiel.
#[local] Existing Instance laufzeit.
#[local] Existing Instance kollaborateure.

(** The model on small inputs. *)

Example literal_sieben_zehntel :
  PyFloat.literal 7 10 = S754_finite false 6305039478318694 (-53).
Proof. vm_compute. reflexivity. Qed.

Example summe_zehntel :
  PyFloat.add (PyFloat.literal 1 10) (PyFloat.literal 2 10)
  = S754_finite false 5404319552844596 (-54)
  /\ PyFloat.literal 3 10 = S754_finite false 5404319552844595 (-54).
Proof. split; vm_compute; reflexivity. Qed.

Example replace_leeres_muster :
  replace (lit "ab") [] (lit "-") = lit "-a-b-"
  /\ replace (lit "aaa") (lit "aa") (lit "b") = lit "ba".
Proof. split; vm_compute; reflexivity. Qed.

Example wortgrenzen :
  (transformiere neu (lit "Die Kabbala, Kabbalah und_Kabbala.")).1.1
  = lit "Die Qabbala, Qabbala und_Kabbala.".
Proof. vm_compute. reflexivity. Qed.

Example gleiche_länge :
  (transformiere neu (lit "Kabbala Kabbala")).1
  = (lit "Qabbala Qabbala",
     [ {| kategorie := lit "k_zu_q"; original := lit "Kabbala";
          ersatz := lit "Qabbala"; position := 0;
          kontext := lit "Qabbala Qabbala" |};
       {| kategorie := lit "k_zu_q"; original := lit "Kabbala";
          ersatz := lit "Qabbala"; position := 8;
          kontext := lit "Qabbala Qabbala" |} ]).
Proof. vm_compute. reflexivity. Qed.

Example leerer_text :
  transformiere neu [] = (([], []), neu).
Proof. reflexivity. Qed.

Example warnung_ohne_wozu :
  (sende_nachricht leer schlechte_nachricht []).1 = Ok false
  /\ stdout (sende_nachricht leer schlechte_nachricht []).2
     = [ Warnung_nicht_verankert;
         Warnung_score (PyFloat.of_Z 0);
         Warnung_fehlend (lit "Kein Wozu definiert!");
         Warnung_empfehlung (lit "Definiere klaren Zweck/Absicht") ].
Proof. split; vm_compute; reflexivity. Qed.

Example korrekturen_zu_zwei_aspekten :
  _generiere_korrekturen [ lit "Wozu-Frage nicht in Hierarchie";
                           lit "Keine klaren Zweck-Indikatoren" ]
  = [ lit "Füge primäre Wozu-Frage hinzu: 'Wozu dient diese Kommunikation?'";
      lit "Verwende klare Zweck-Formulierungen: 'um zu...', 'damit...'";
      WWAQ_HINWEIS ].
Proof. vm_compute. reflexivity. Qed.

(** A message with a purpose: validation raises. *)
Lemma validiere_wozu_zentrierung_raises_beleg :
  wozu gute_nachricht <> []
  /\ validiere_wozu_zentrierung gute_nachricht = Raise (AttributeError "weltebene").
Proof.
  assert (Hw : wozu gute_nachricht <> []) by (vm_compute; discriminate).
  split; [exact Hw|].
  destruct (validiere_wozu_zentrierung_raises gute_nachricht Hw) as (_ & _ & Hr).
  apply (Hr JEZIRA). reflexivity.
Defined.


(** The message with two markers scores above 0.7 and gets no verdict;
    the message at exactly 0.7 is not answered with [False]. *)
Lemma verankerung_ohne_urteil_beleg :
  PyFloat.gt (_berechne_azilut_score gute_nachricht) (PyFloat.literal 7 10) = true
  /\ validiere_wozu_zentrierung gute_nachricht = Raise (AttributeError "weltebene")
  /\ (sende_nachricht leer gute_nachricht []).1 = Raise (AttributeError "weltebene")
  /\ komm (sende_nachricht leer gute_nachricht []).2 = leer
  /\ _berechne_azilut_score grenz_nachricht = PyFloat.literal 7 10
  /\ (sende_nachricht leer grenz_nachricht []).1 <> Ok false.
Proof.
  assert (Hg : PyFloat.gt (_berechne_azilut_score gute_nachricht) (PyFloat.literal 7 10)
               = true) by (vm_compute; reflexivity).
  split; [exact Hg|].
  destruct (verankerung_ohne_urteil gute_nachricht Hg)
    as (_ & _ & Hr & Hs & _ & Hb & _).
  assert (Hn : normalisiere gute_nachricht = gute_nachricht) by (vm_compute; reflexivity).
  assert (Hw : wozu grenz_nachricht <> []) by (vm_compute; discriminate).
  assert (Hsc : _berechne_azilut_score grenz_nachricht = PyFloat.literal 7 10)
    by (vm_compute; reflexivity).
  assert (Hn' : normalisiere grenz_nachricht = grenz_nachricht)
    by (vm_compute; reflexivity).
  split; [exact (Hr JEZIRA eq_refl)|].
  split; [vm_compute; reflexivity|].
  split; [exact (proj2 (Hs leer gute_nachricht [] Hn))|].
  split; [exact Hsc|].
  destruct (Hb grenz_nachricht Hw Hsc) as (_ & _ & Hf).
  exact (Hf leer grenz_nachricht [] Hn').
Defined.


(** [sende_nachricht] on the message without a purpose. *)
Lemma sende_nachricht_blockiert_beleg :
  validiere_wozu_zentrierung (normalisiere schlechte_nachricht) = Ok kurzes_urteil
  /\ ist_verankert kurzes_urteil = false
  /\ nachrichten_queue (komm (sende_nachricht leer schlechte_nachricht []).2)
     = nachrichten_queue leer.
Proof.
  assert (Hv : validiere_wozu_zentrierung (normalisiere schlechte_nachricht)
               = Ok kurzes_urteil) by (vm_compute; reflexivity).
  assert (Ha : ist_verankert kurzes_urteil = false) by reflexivity.
  split; [exact Hv|]. split; [exact Ha|].
  destruct (sende_nachricht_blockiert leer schlechte_nachricht [] kurzes_urteil Hv Ha)
    as (_ & Hq & _).
  exact Hq.
Defined.

(** The record of the second occurrence in [text_zerbrochen]. *)
Lemma aenderung_am_zwischentext_beleg :
  zweite_aenderung ∈ (transformiere neu text_zerbrochen).1.2
  /\ exists vor kat muster neu' nach,
       regelfolge (transformationen neu) = vor ++ (kat, (muster, neu')) :: nach
       /\ slice (zwischentext vor text_zerbrochen) 11 (11 + 10) = lit "zerbrochen".
Proof.
  assert (Hin : zweite_aenderung ∈ (transformiere neu text_zerbrochen).1.2).
  { apply list_elem_of_In. vm_compute. right. left. reflexivity. }
  split; [exact Hin|].
  destruct (aenderung_am_zwischentext neu text_zerbrochen zweite_aenderung Hin)
    as (vor & kat & muster & neu' & nach & Hr & _ & _ & _ & Hs & _).
  exists vor, kat, muster, neu', nach.
  split; [exact Hr|exact Hs].
Defined.

(** Counterexample to C2. Module A is sent one message, then module B
    is sent one. B's consumer takes its one message; A's consumer, asking
    next, finds the queue empty: its message was taken off the queue and
    dropped by B's consumer. *)
Lemma gemeinsame_queue_verliert_nachricht :
  let erst := empfange_nachrichten 1 (lit "B") queue_A_B in
  let dann := empfange_nachrichten 1 (lit "A") erst.2 in
  nachrichten_für (lit "A") queue_A_B = [für_A]
  /\ erst.1 = [für_B]
  /\ erst.2 = []
  /\ dann.1 = []
  /\ dann.1 <> nachrichten_für (lit "A") queue_A_B.
Proof.
  vm_compute. repeat split. discriminate.
Qed.

(** Counterexample to C3. In [text_zerbrochen] the second occurrence is
    recorded at offset 11, where it was matched; in the text returned
    the replacement stands at offset 10, and the recorded context still
    holds the token that a later rule rewrote. *)
Lemma position_nicht_im_endtext :
  let final := (transformiere neu text_zerbrochen).1.1 in
  zweite_aenderung ∈ (transformiere neu text_zerbrochen).1.2
  /\ final = lit "geborsten geborsten Tiqqun"
  /\ slice final 10 19 = ersatz zweite_aenderung
  /\ slice final (position zweite_aenderung)
           (position zweite_aenderung + length (ersatz zweite_aenderung))
     <> ersatz zweite_aenderung
  /\ kontext zweite_aenderung
     <> slice final (position zweite_aenderung - 20)
              (position zweite_aenderung + length (ersatz zweite_aenderung) + 20)
  /\ ~ im_endtext final zweite_aenderung.
Proof.
  cbv zeta. split; [|split; [|split; [|split; [|split]]]].
  - apply list_elem_of_In. vm_compute. right. left. reflexivity.
  - vm_compute. reflexivity.
  - vm_compute. reflexivity.
  - vm_compute. discriminate.
  - vm_compute. discriminate.
  - intros [Hp _]. vm_compute in Hp. discriminate.
Qed.

(** The window of a record is cut, with the offsets of the match, out
    of the text as it stands after the rule's substitution. In
    [text_zerfallen] the twelfth record has position 110 and the window
    from 90 to 139 of the text returned, in which its replacement
    stands from 143 to 155: eleven earlier replacements have moved it
    out of the window. *)
Example kontext_neben_der_ersetzung :
  let ergebnis := transformiere neu text_zerfallen in
  exists a, ergebnis.1.2 !! 11 = Some a
    /\ position a = 110
    /\ kontext a = slice ergebnis.1.1 90 139
    /\ slice ergebnis.1.1 143 155 = ersatz a.
Proof.
  cbv zeta. eexists. split; [vm_compute; reflexivity|].
  repeat split; vm_compute; reflexivity.
Qed.

(** Counterexample to C9. The verdict for a message without a purpose
    has one suggestion, and it is not the reminder. *)
Lemma kurzschluss_ohne_hinweis :
  validiere_wozu_zentrierung schlechte_nachricht = Ok kurzes_urteil
  /\ empfohlene_korrekturen kurzes_urteil = [DEFINIERE_ZWECK]
  /\ last (empfohlene_korrekturen kurzes_urteil) <> Some WWAQ_HINWEIS.
Proof.
  split; [vm_compute; reflexivity|]. split; [reflexivity|].
  vm_compute. discriminate.
Qed.

End Belege.

(* ===================================================================== *)
(** ** Further properties: the parser *)
(* ===================================================================== *)

Section Weitere_Parser.
Context `{Runtime} `{ParserMehr.IgnoreCase}.
Import Re ParserMehr.

Lemma str_in_false (w text : str) :
  str_in w text = false ->
  startswith w text = false
  /\ match text with [] => True | _ :: r => str_in w r = false end.
Proof.
  destruct text as [|c r]; cbn [str_in]; intros Hs; apply orb_false_iff in Hs;
    destruct Hs; split; auto.
Qed.

Lemma match_here_startswith (wort : str) (prev : option char) (text : str) :
  startswith wort text = false -> match_here wort prev text = false.
Proof.
  intros Hs. unfold match_here. rewrite Hs, andb_false_r. reflexivity.
Qed.

(** No occurrence of the literal, no match. *)
Lemma finditer_go_nil (wort text : str) :
  str_in wort text = false ->
  forall prev pos skip, finditer_go wort prev pos skip text = [].
Proof.
  induction text as [|c r IH]; intros Hs prev pos skip;
    apply str_in_false in Hs as [Hs Hr]; cbn [finditer_go].
  - destruct skip; [|reflexivity].
    rewrite match_here_startswith by assumption. reflexivity.
  - destruct skip as [|k]; [|apply IH; assumption].
    rewrite match_here_startswith by assumption. apply IH. assumption.
Qed.

Lemma foldl_schritt_ohne_treffer (rules : list (str * (Muster * str))) (text : str) :
  Forall (fun r => str_in (wort_von r.2.1) text = false) rules ->
  foldl schritt (text, []) rules = (text, []).
Proof.
  induction 1 as [|[kat [[wort] neu]] rules Hr _ IH]; [reflexivity|].
  cbn [foldl]. cbn [fst snd wort_von] in Hr.
  unfold schritt at 2, regel_schritt. cbn [fst snd finditer].
  rewrite finditer_go_nil by assumption. assumption.
Qed.

(** X1. A text in which no literal of the rule table occurs, not even
    inside a longer word, comes back unchanged with an empty change
    log, and the count of changed terms stays as it was. *)
Theorem transformiere_ohne_treffer (self : WWAQGlossarParser) (text : str) :
  Forall (fun r => str_in (wort_von r.2.1) text = false)
         (regelfolge (transformationen self)) ->
  (transformiere self text).1 = (text, [])
  /\ st_begriffe (statistik (transformiere self text).2) = st_begriffe (statistik self).
Proof.
  intros Hf. unfold transformiere. destruct text as [|c text]; [split; reflexivity|].
  rewrite foldl_kategorie_schritt, foldl_schritt_ohne_treffer by assumption.
  cbn. split; [reflexivity|lia].
Qed.

Lemma regelfolge_in (t : Transformationen) (kat : str) (r : Muster * str) :
  (kat, r) ∈ regelfolge t -> exists regeln, (kat, regeln) ∈ t /\ r ∈ regeln.
Proof.
  intros Hin. apply list_elem_of_In in Hin. unfold regelfolge in Hin.
  apply in_flat_map in Hin as ([kat' regeln] & Ht & Hr).
  apply in_map_iff in Hr as (r' & Heq & Hr). injection Heq as <- <-.
  exists regeln. split; apply list_elem_of_In; assumption.
Qed.

(** X2. Every change record documents a rule of the table: its category
    is a category of the table, and that category holds a rule whose
    literal is the recorded original token and whose replacement is the
    recorded replacement. *)
Theorem aenderung_aus_tabelle (self : WWAQGlossarParser) (text : str) (a : Aenderung) :
  a ∈ (transformiere self text).1.2 ->
  exists regeln muster,
    (kategorie a, regeln) ∈ transformationen self
    /\ (muster, ersatz a) ∈ regeln
    /\ wort_von muster = original a.
Proof.
  intros Hin. rewrite transformiere_log in Hin.
  destruct text as [|c text]; [inversion Hin|].
  apply foldl_schritt_log in Hin as [Hin|Hin]; [inversion Hin|].
  destruct Hin as (vor & kat & [wort] & neu & nach & m & Hr & Hm & ->).
  destruct (regelfolge_in (transformationen self) kat (Wortgrenzen wort, neu))
    as (regeln & Ht & Hin).
  { rewrite Hr. apply elem_of_app. right. apply list_elem_of_here. }
  exists regeln, (Wortgrenzen wort). cbn [eintrag kategorie ersatz original wort_von].
  split; [assumption|]. split; [assumption|].
  cbn [finditer] in Hm.
  destruct (finditer_go_spec wort _ None 0 0 [] m eq_refl Hm) as (-> & _).
  reflexivity.
Qed.

Lemma transformiere_tabelle (self : WWAQGlossarParser) (text : str) :
  transformationen (transformiere self text).2 = transformationen self.
Proof.
  unfold transformiere. destruct text as [|c text]; [reflexivity|].
  destruct (foldl kategorie_schritt _ (transformationen self)). reflexivity.
Qed.

Lemma transformiere_nur_tabelle (self1 self2 : WWAQGlossarParser) (text : str) :
  transformationen self1 = transformationen self2 ->
  (transformiere self1 text).1 = (transformiere self2 text).1.
Proof.
  intros Ht. unfold transformiere. destruct text as [|c text]; [reflexivity|].
  rewrite Ht. destruct (foldl kategorie_schritt _ (transformationen self2)).
  reflexivity.
Qed.

Lemma transformiere_statistik (self : WWAQGlossarParser) (text : str) :
  st_transformationen (statistik (transformiere self text).2)
  = st_transformationen (statistik self) + (if text is [] then 0 else 1)
  /\ st_begriffe (statistik (transformiere self text).2)
     = st_begriffe (statistik self) + length (transformiere self text).1.2.
Proof.
  unfold transformiere. destruct text as [|c text]; [cbn; lia|].
  destruct (foldl kategorie_schritt _ (transformationen self)). cbn. lia.
Qed.

(** X3. Over a sequence of calls on one parser object the counters only
    count: every call returns what it would return on the parser as it
    was at the start, the rule table is never changed, the call counter
    grows by the number of non-empty texts and the term counter by the
    total number of change records. *)
Theorem transformiere_folge_statistik (self : WWAQGlossarParser) (texte : list str) :
  (transformiere_folge self texte).1 = map (fun text => (transformiere self text).1) texte
  /\ transformationen (transformiere_folge self texte).2 = transformationen self
  /\ st_transformationen (statistik (transformiere_folge self texte).2)
     = st_transformationen (statistik self)
       + length (List.filter (fun text => negb (bool_decide (text = []))) texte)
  /\ st_begriffe (statistik (transformiere_folge self texte).2)
     = st_begriffe (statistik self)
       + sum_list (map (fun e => length e.2) (transformiere_folge self texte).1).
Proof.
  revert self. induction texte as [|text texte IH]; intros self.
  - cbn. repeat split; lia.
  - cbn [transformiere_folge].
    pose proof (transformiere_tabelle self text) as Ht.
    pose proof (transformiere_statistik self text) as [Hs1 Hs2].
    destruct (transformiere self text) as [ergebnis self1] eqn:He.
    cbn [fst snd] in Ht, Hs1, Hs2.
    specialize (IH self1). destruct (transformiere_folge self1 texte) as [es self2].
    cbn [fst snd] in *. destruct IH as (IH1 & IH2 & IH3 & IH4).
    split; [|split; [|split]].
    + cbn [map]. rewrite He. cbn [fst]. f_equal. rewrite IH1.
      apply map_ext. intros t. apply transformiere_nur_tabelle. assumption.
    + congruence.
    + rewrite IH3, Hs1. cbn [List.filter]. destruct text as [|c t].
      * rewrite bool_decide_eq_true_2 by reflexivity. cbn [negb]. lia.
      * rewrite bool_decide_eq_false_2 by discriminate. cbn [negb length]. lia.
    + rewrite IH4, Hs2. cbn [map sum_list sum_list_with]. unfold id. lia.
Qed.

(** X4. In the result of [validiere_begriff] the flag and the hints go
    together: the term is valid exactly when no hint is given, there
    are at most three hints, and a term in which "Kabbala" occurs
    without "Qabbala" is not valid and carries the hint for it. *)
Theorem validiere_begriff_hinweise (b : str) :
  begriff (validiere_begriff b) = b
  /\ (gültig (validiere_begriff b) = true <-> hinweise (validiere_begriff b) = [])
  /\ length (hinweise (validiere_begriff b)) <= 3
  /\ (str_in (lit "Kabbala") b = true -> str_in (lit "Qabbala") b = false ->
      gültig (validiere_begriff b) = false
      /\ lit "Kabbala sollte als Qabbala geschrieben werden"
         ∈ hinweise (validiere_begriff b)).
Proof.
  unfold validiere_begriff.
  destruct (str_in (lit "Kabbala") b) eqn:H1, (str_in (lit "Qabbala") b) eqn:H2,
    (str_in (lit "Kawana") b && negb (str_in (lit "Qawana") b)) eqn:H3,
    (search_zer b) eqn:H4;
    cbv beta iota zeta delta [andb negb ungültig begriff gültig hinweise app length];
    (split; [reflexivity|]); (split; [split; intros; congruence|]);
    (split; [lia|]); intros; try discriminate;
    (split; [reflexivity|]); apply list_elem_of_here.
Qed.

End Weitere_Parser.

(* ===================================================================== *)
(** ** Further properties: glossary manager and [sende_nachricht] *)
(* ===================================================================== *)

Section Weitere_Sendung.
Context `{Runtime} `{Kollaborateure}.

Lemma replace_go_not_in (old new text : str) :
  str_in old text = false -> replace_go old new 0 text = text.
Proof.
  induction text as [|c r IH]; intros Hs; [reflexivity|].
  apply str_in_false in Hs as [Hs Hr]. cbn [replace_go]. rewrite Hs.
  f_equal. apply IH. assumption.
Qed.

Lemma replace_not_in (text old new : str) :
  str_in old text = false -> replace text old new = text.
Proof.
  intros Hs. destruct old as [|a old].
  - destruct text; discriminate.
  - apply replace_go_not_in. assumption.
Qed.

Lemma foldl_replace_not_in (tabelle : list (str * str)) (text : str) :
  Forall (fun e => str_in e.1 text = false) tabelle ->
  foldl (fun text '(old, new) => replace text old new) text tabelle = text.
Proof.
  induction 1 as [|[old new] tabelle He _ IH]; [reflexivity|].
  cbn [foldl]. cbn [fst] in He. rewrite replace_not_in by assumption. assumption.
Qed.

(** X5. [GlossarManager.transform] returns a text unchanged when no key
    of its two tables occurs in it. *)
Theorem transform_ohne_treffer (text : str) :
  Forall (fun e => str_in e.1 text = false) K_zu_Q ->
  Forall (fun e => str_in e.1 text = false) Zer_Elimination ->
  transform text = text.
Proof.
  intros HK HZ. unfold transform.
  rewrite (foldl_replace_not_in K_zu_Q) by assumption.
  apply foldl_replace_not_in. assumption.
Qed.

Lemma str_in_leer (old : str) : old <> [] -> str_in old [] = false.
Proof. destruct old; [congruence|reflexivity]. Qed.

Lemma normalisiere_ohne_wozu (n : EchtzeitNachricht) :
  wozu n = [] ->
  Forall (fun e : str * str => e.1 <> []) K_zu_Q ->
  Forall (fun e : str * str => e.1 <> []) Zer_Elimination ->
  wozu (normalisiere n) = [].
Proof.
  intros Hw HK HZ. unfold normalisiere. cbn [wozu set_wozu set_inhalt]. rewrite Hw.
  apply transform_ohne_treffer;
    (eapply Forall_impl; [eassumption|]); intros e He; apply str_in_leer; assumption.
Qed.

(** X6. When no key of the glossary tables is the empty string, a
    message handed to [sende_nachricht] with an empty purpose is turned
    away: the answer is [False], the four warning lines name the score
    0.0, the missing purpose and the advice to state one, the message
    carries the short verdict, and the queue is untouched. *)
Theorem sende_nachricht_ohne_wozu (self : EchtzeitKommunikator)
    (n : EchtzeitNachricht) (out : list Zeile) :
  wozu n = [] ->
  Forall (fun e : str * str => e.1 <> []) K_zu_Q ->
  Forall (fun e : str * str => e.1 <> []) Zer_Elimination ->
  sende_nachricht self n out =
    (Ok false,
     {| objekt := set_validierung (normalisiere n)
                    {| ist_verankert := false;
                       azilut_score := PyFloat.of_Z 0;
                       fehlende_wozu_aspekte := [KEIN_WOZU];
                       empfohlene_korrekturen := [DEFINIERE_ZWECK];
                       weltebene := ASIJA |};
        komm := self;
        stdout := out ++ [ Warnung_nicht_verankert;
                           Warnung_score (PyFloat.of_Z 0);
                           Warnung_fehlend KEIN_WOZU;
                           Warnung_empfehlung DEFINIERE_ZWECK ] |}).
Proof.
  intros Hw HK HZ.
  pose proof (normalisiere_ohne_wozu n Hw HK HZ) as Hn.
  pose proof (validiere_ohne_wozu _ Hn) as Hv.
  destruct (sende_nachricht_nicht_verankert self n out _ Hv eq_refl)
    as (empfehlung & He & ->).
  cbn [empfohlene_korrekturen fehlende_wozu_aspekte azilut_score join
       lookup list_lookup] in He |- *.
  injection He as <-. reflexivity.
Qed.

(** X7. [sende_nachricht] never answers [True] and never puts a message
    on the queue, whatever the message and the collaborators: when the
    normalised purpose is empty the answer is [False], otherwise the
    call ends with an exception. *)
Theorem sende_nachricht_stellt_nie_zu (self : EchtzeitKommunikator)
    (n : EchtzeitNachricht) (out : list Zeile) :
  (sende_nachricht self n out).1 <> Ok true
  /\ komm (sende_nachricht self n out).2 = self
  /\ (wozu (normalisiere n) = [] -> (sende_nachricht self n out).1 = Ok false)
  /\ (wozu (normalisiere n) <> [] -> returns (sende_nachricht self n out).1 = false).
Proof.
  assert (Hnie : (sende_nachricht self n out).1 <> Ok true).
  { unfold sende_nachricht. cbv zeta.
    destruct (validiere_wozu_zentrierung (normalisiere n)) as [v|e] eqn:Hv;
      [|discriminate].
    destruct (validiere_Ok_inv _ _ Hv) as [_ ->]. cbn [ist_verankert negb].
    destruct (_ !! 0); discriminate. }
  split; [assumption|]. split; [apply sende_nachricht_queue; assumption|]. split.
  - intros Hw. pose proof (validiere_ohne_wozu _ Hw) as Hv.
    destruct (sende_nachricht_nicht_verankert self n out _ Hv eq_refl) as (k & _ & ->).
    reflexivity.
  - intros Hw. unfold sende_nachricht. cbv zeta.
    rewrite validiere_mit_wozu by assumption.
    destruct (erkenne_weltebene _); reflexivity.
Qed.

(** X12. When every message in the queue is addressed to the module
    that receives, nothing is lost: a consumer asking for up to [k]
    messages gets the first [k] of the queue in order, and the rest of
    the queue stays. *)
Theorem empfange_nachrichten_ein_modul (k : nat) (modul : str)
    (queue : list EchtzeitNachricht) :
  Forall (fun n => empfänger_modul n = modul) queue ->
  empfange_nachrichten k modul queue = (take k queue, drop k queue).
Proof.
  revert queue. induction k as [|k IH]; intros queue Hq; [reflexivity|].
  cbn [empfange_nachrichten]. destruct Hq as [|n queue Hn Hq]; [reflexivity|].
  cbn [anext]. rewrite bool_decide_eq_true_2 by assumption.
  rewrite (IH queue Hq). reflexivity.
Qed.

End Weitere_Sendung.

(* ===================================================================== *)
(** ** Further properties: messages, score and suggestions *)
(* ===================================================================== *)

Section Weitere_Wozu.
Context `{Runtime} `{Kollaborateure}.
Import WozuMehr.

Lemma _berechne_score_aus (n : EchtzeitNachricht) :
  wozu n <> [] ->
  _berechne_azilut_score n
  = score_aus (indicators_found n) (markers_found n)
              (dict_in WOZU (frage_hierarchie n)).
Proof.
  intros Hw. unfold _berechne_azilut_score, score_aus, indicators_found,
    markers_found, count_if.
  destruct (wozu n); [congruence|reflexivity].
Qed.

(** A property of the score checked on every pair of counts holds for
    all counts that can occur. *)
Lemma tabelle_alle (P : nat -> nat -> bool -> bool) :
  forallb (fun k => forallb (fun m => P k m true && P k m false) (seq 0 7)) (seq 0 10)
  = true ->
  forall k m b, k <= 9 -> m <= 6 -> P k m b = true.
Proof.
  intros Ht k m b Hk Hm.
  rewrite forallb_forall in Ht. specialize (Ht k).
  rewrite forallb_forall in Ht.
  assert (Hkm : P k m true && P k m false = true).
  { apply Ht; apply in_seq; lia. }
  apply andb_true_iff in Hkm as [Ht' Hf']. destruct b; assumption.
Qed.

Tactic Notation "fälle" integer(n) ident(k) "mit" tactic3(tac) :=
  do n (destruct k as [|k]; [tac|]); exfalso; lia.

(** Beyond two phrases and two markers the caps hold the score. *)
Lemma score_aus_kappe (k m : nat) (b : bool) :
  k <= 9 -> m <= 6 -> score_aus k m b = score_aus (Nat.min k 2) (Nat.min m 2) b.
Proof.
  intros Hk Hm. destruct b.
  - fälle 10 k mit (fälle 7 m mit (vm_compute; reflexivity)).
  - fälle 10 k mit (fälle 7 m mit (vm_compute; reflexivity)).
Qed.

Lemma score_aus_monoton_bis_kappe (k k' m m' : nat) (b b' : bool) :
  k <= k' -> k' <= 2 -> m <= m' -> m' <= 2 -> (b = true -> b' = true) ->
  PyFloat.leb (score_aus k m b) (score_aus k' m' b') = true.
Proof.
  intros Hk Hk' Hm Hm' Hb.
  destruct b, b'; try discriminate (Hb eq_refl); clear Hb;
    fälle 3 k mit (fälle 3 k' mit (fälle 3 m mit (fälle 3 m' mit
      (first [ exfalso; lia | vm_compute; reflexivity ])))).
Qed.

Lemma score_aus_monoton (k k' m m' : nat) (b b' : bool) :
  k <= k' -> k' <= 9 -> m <= m' -> m' <= 6 -> (b = true -> b' = true) ->
  PyFloat.leb (score_aus k m b) (score_aus k' m' b') = true.
Proof.
  intros Hk Hk' Hm Hm' Hb.
  rewrite (score_aus_kappe k m b), (score_aus_kappe k' m' b') by lia.
  apply score_aus_monoton_bis_kappe; try assumption; lia.
Qed.

(** X8. A message built by [erstelle_wozu_zentrierte_nachricht] always
    has the WOZU question: its text is the one the additional questions
    give for WOZU when they give one, and the purpose otherwise; every
    other question is as the additional questions give it; the message
    starts without verdict and level. With a non-empty purpose its
    score is at least 0.5. *)
Theorem erstelle_hat_wozu_frage (inhalt wozu sender empfänger : str)
    (zusatz : option (gmap FrageTyp str)) (jetzt : str) :
  let n := erstelle_wozu_zentrierte_nachricht inhalt wozu sender empfänger zusatz jetzt in
  dict_in WOZU (frage_hierarchie n) = true
  /\ frage_hierarchie n !! WOZU
     = Some (match zusatz with
             | Some z => default wozu (z !! WOZU)
             | None => wozu
             end)
  /\ (forall frage, frage <> WOZU ->
        frage_hierarchie n !! frage
        = match zusatz with Some z => z !! frage | None => None end)
  /\ validierung n = None /\ pardes_ebene n = None
  /\ (wozu <> [] ->
      PyFloat.leb (PyFloat.literal 5 10) (_berechne_azilut_score n) = true).
Proof.
  intros n.
  assert (HW : frage_hierarchie n !! WOZU
               = Some (match zusatz with
                       | Some z => default wozu (z !! WOZU)
                       | None => wozu
                       end)).
  { subst n. cbn [frage_hierarchie erstelle_wozu_zentrierte_nachricht].
    destruct zusatz as [z|]; [|apply lookup_singleton_eq].
    case_bool_decide as Hz.
    - subst z. rewrite lookup_empty. apply lookup_singleton_eq.
    - rewrite lookup_union, lookup_singleton_eq.
      destruct (z !! WOZU); reflexivity. }
  assert (HD : dict_in WOZU (frage_hierarchie n) = true).
  { unfold dict_in. rewrite HW. reflexivity. }
  split; [assumption|]. split; [assumption|]. split; [|split; [|split]].
  - intros frage Hf. subst n. cbn [frage_hierarchie erstelle_wozu_zentrierte_nachricht].
    destruct zusatz as [z|]; [|apply lookup_singleton_ne; congruence].
    case_bool_decide as Hz.
    + subst z. rewrite lookup_empty. apply lookup_singleton_ne. congruence.
    + rewrite lookup_union, lookup_singleton_ne by congruence.
      destruct (z !! frage); reflexivity.
  - reflexivity.
  - reflexivity.
  - intros Hw. rewrite _berechne_score_aus by (subst n; exact Hw). rewrite HD.
    assert (Htab : forallb (fun k => forallb (fun m =>
              implb true (PyFloat.leb (PyFloat.literal 5 10) (score_aus k m true))
              && implb false (PyFloat.leb (PyFloat.literal 5 10) (score_aus k m false)))
              (seq 0 7)) (seq 0 10) = true) by (vm_compute; reflexivity).
    exact (tabelle_alle (fun k m b =>
             implb b (PyFloat.leb (PyFloat.literal 5 10) (score_aus k m b)))
           Htab (indicators_found n) (markers_found n) true
           (indicators_found_le n) (markers_found_le n)).
Qed.

(** X9. Which messages pass the threshold: with a non-empty purpose the
    score is above 0.7 exactly when, with the WOZU question in the
    hierarchy, two markers are found or one marker and one indicator
    phrase, and without it, two markers and two indicator phrases. A
    message in which no marker is found is never above the threshold. *)
Theorem azilut_score_schwelle (n : EchtzeitNachricht) :
  wozu n <> [] ->
  PyFloat.gt (_berechne_azilut_score n) (PyFloat.literal 7 10)
  = über_schwelle (indicators_found n) (markers_found n)
                  (dict_in WOZU (frage_hierarchie n))
  /\ (markers_found n = 0 ->
      PyFloat.gt (_berechne_azilut_score n) (PyFloat.literal 7 10) = false).
Proof.
  intros Hw. rewrite _berechne_score_aus by assumption.
  assert (Hs : PyFloat.gt (score_aus (indicators_found n) (markers_found n)
                             (dict_in WOZU (frage_hierarchie n)))
                          (PyFloat.literal 7 10)
               = über_schwelle (indicators_found n) (markers_found n)
                               (dict_in WOZU (frage_hierarchie n))).
  { apply Bool.eqb_prop.
    apply (tabelle_alle (fun k m b =>
             Bool.eqb (PyFloat.gt (score_aus k m b) (PyFloat.literal 7 10))
                      (über_schwelle k m b)));
      [vm_compute; reflexivity| |].
    - apply indicators_found_le.
    - apply markers_found_le. }
  split; [assumption|].
  intros Hm. rewrite Hs, Hm. unfold über_schwelle.
  destruct (dict_in WOZU (frage_hierarchie n)); [reflexivity|].
  apply andb_false_r.
Qed.

Lemma startswith_app (x s t : str) :
  startswith x s = true -> startswith x (s ++ t) = true.
Proof.
  revert s. induction x as [|a x IH]; intros [|b s] Hs; cbn in *;
    try reflexivity; try discriminate.
  apply andb_true_iff in Hs as [Hab Hs]. rewrite Hab. cbn. apply IH. assumption.
Qed.

Lemma str_in_app (x s t : str) :
  str_in x s = true -> str_in x (s ++ t) = true.
Proof.
  induction s as [|c s IH]; cbn [str_in app]; intros Hs.
  - rewrite orb_false_r in Hs. destruct x; [|discriminate]. destruct t; reflexivity.
  - apply orb_true_iff in Hs as [Hs|Hs]; apply orb_true_iff.
    + left. apply (startswith_app x (c :: s) t). assumption.
    + right. apply IH. assumption.
Qed.

Lemma filter_length_mono {A} (p q : A -> bool) (l : list A) :
  (forall x, p x = true -> q x = true) ->
  length (List.filter p l) <= length (List.filter q l).
Proof.
  intros Hpq. induction l as [|x l IH]; [reflexivity|]. cbn [List.filter].
  destruct (p x) eqn:Hp.
  - rewrite (Hpq x Hp). cbn. lia.
  - destruct (q x); cbn; lia.
Qed.

(** X10. The score never falls when more is found: for a message with
    a non-empty purpose, appending text to the content does not lower
    the score; and of two messages with a purpose, the one in which at
    least as many indicator phrases and markers are found, and which
    has the WOZU question if the other has it, scores at least as
    much. *)
Theorem azilut_score_monoton (n : EchtzeitNachricht) :
  wozu n <> [] ->
  (forall zusatz,
     PyFloat.leb (_berechne_azilut_score n)
                 (_berechne_azilut_score (set_inhalt n (inhalt n ++ zusatz))) = true)
  /\ (forall n', wozu n' <> [] ->
        indicators_found n <= indicators_found n' ->
        markers_found n <= markers_found n' ->
        (dict_in WOZU (frage_hierarchie n) = true ->
         dict_in WOZU (frage_hierarchie n') = true) ->
        PyFloat.leb (_berechne_azilut_score n) (_berechne_azilut_score n') = true).
Proof.
  intros Hw.
  assert (Hall : forall n', wozu n' <> [] ->
            indicators_found n <= indicators_found n' ->
            markers_found n <= markers_found n' ->
            (dict_in WOZU (frage_hierarchie n) = true ->
             dict_in WOZU (frage_hierarchie n') = true) ->
            PyFloat.leb (_berechne_azilut_score n) (_berechne_azilut_score n') = true).
  { intros n' Hw' Hk Hm Hb. rewrite !_berechne_score_aus by assumption.
    apply score_aus_monoton; try assumption.
    - apply indicators_found_le.
    - apply markers_found_le. }
  split; [|assumption].
  intros zusatz. apply Hall.
  - exact Hw.
  - reflexivity.
  - unfold markers_found. cbn [inhalt wozu set_inhalt].
    apply filter_length_mono. intros marker Hmk.
    apply orb_true_iff in Hmk as [Hmk|Hmk]; apply orb_true_iff.
    + left. apply str_in_app. assumption.
    + right. assumption.
  - intros Hb. exact Hb.
Qed.

Lemma foldl_korrekturen_length (fehlende acc : list str) :
  let schritt := fun (korrekturen : list str) (fehler : str) =>
    if str_in (lit "Wozu-Frage") fehler
    then korrekturen ++ [lit "Füge primäre Wozu-Frage hinzu: 'Wozu dient diese Kommunikation?'"]
    else if str_in (lit "Zweck-Indikatoren") fehler
    then korrekturen ++ [lit "Verwende klare Zweck-Formulierungen: 'um zu...', 'damit...'"]
    else if str_in (lit "Asija") fehler
    then korrekturen ++ [lit "Erhebe Perspektive: Von WAS (Asija) zu WOZU (Azilut)"]
    else korrekturen in
  length (foldl schritt acc fehlende)
  = length acc
    + length (List.filter (fun fehler => str_in (lit "Wozu-Frage") fehler
                                         || str_in (lit "Zweck-Indikatoren") fehler
                                         || str_in (lit "Asija") fehler) fehlende).
Proof.
  intros schritt. revert acc.
  induction fehlende as [|f fehlende IH]; intros acc; [cbn; lia|].
  cbn [foldl List.filter]. rewrite IH. subst schritt. cbv beta.
  destruct (str_in (lit "Wozu-Frage") f); [cbn [orb length]; rewrite length_app; cbn; lia|].
  destruct (str_in (lit "Zweck-Indikatoren") f);
    [cbn [orb length]; rewrite length_app; cbn; lia|].
  destruct (str_in (lit "Asija") f);
    [cbn [orb length]; rewrite length_app; cbn; lia|].
  cbn [orb]. lia.
Qed.

(** X11. [_generiere_korrekturen] gives one suggestion for every
    missing aspect that names one of its three key words, none for any
    other entry, and the reminder: the number of suggestions is between
    1 and the number of missing aspects plus 1, and for the three
    aspects that [_finde_fehlende_aspekte] can name it is their number
    plus 1. *)
Theorem generiere_korrekturen_anzahl (fehlende : list str) :
  length (_generiere_korrekturen fehlende)
  = length (List.filter (fun fehler => str_in (lit "Wozu-Frage") fehler
                                       || str_in (lit "Zweck-Indikatoren") fehler
                                       || str_in (lit "Asija") fehler) fehlende) + 1
  /\ 1 <= length (_generiere_korrekturen fehlende) <= length fehlende + 1
  /\ (Forall (fun fehler => fehler ∈ [ lit "Wozu-Frage nicht in Hierarchie";
                                       lit "Keine klaren Zweck-Indikatoren";
                                       lit "Zu stark in Asija (Handlung) verhaftet" ])
             fehlende ->
      length (_generiere_korrekturen fehlende) = length fehlende + 1).
Proof.
  assert (Hl : length (_generiere_korrekturen fehlende)
    = length (List.filter (fun fehler => str_in (lit "Wozu-Frage") fehler
                                         || str_in (lit "Zweck-Indikatoren") fehler
                                         || str_in (lit "Asija") fehler) fehlende) + 1).
  { unfold _generiere_korrekturen. rewrite length_app.
    rewrite (foldl_korrekturen_length fehlende []). cbn [length]. lia. }
  split; [assumption|]. split.
  - rewrite Hl. pose proof (filter_length_le
      (fun fehler => str_in (lit "Wozu-Frage") fehler
                     || str_in (lit "Zweck-Indikatoren") fehler
                     || str_in (lit "Asija") fehler) fehlende). lia.
  - intros Hf. rewrite Hl. f_equal. clear Hl.
    induction Hf as [|f fehlende Hin _ IH]; [reflexivity|].
    cbn [List.filter length].
    replace (str_in (lit "Wozu-Frage") f || str_in (lit "Zweck-Indikatoren") f
             || str_in (lit "Asija") f) with true.
    + cbn [length]. f_equal. apply IH.
    + repeat (apply elem_of_cons in Hin as [->|Hin]; [vm_compute; reflexivity|]).
      inversion Hin.
Qed.

End Weitere_Wozu.

(* ===================================================================== *)
(** ** Further properties: the report *)
(* ===================================================================== *)

Section Weitere_Bericht.
Context `{Runtime} `{Kollaborateure}.
Import WozuMehr.

Lemma sum_list_cons (x : nat) (l : list nat) :
  sum_list (x :: l) = x + sum_list l.
Proof. reflexivity. Qed.

Lemma zähle_sum {K} `{EqDecision K} (k : K) (d : list (K * nat)) :
  sum_list (map snd (zähle k d)) = S (sum_list (map snd d)).
Proof.
  induction d as [|[k' c] d IH]; [reflexivity|]. cbn [zähle].
  destruct (decide (k' = k)); cbn [map snd]; rewrite !sum_list_cons.
  - lia.
  - rewrite IH. lia.
Qed.

Lemma zähle_keys {K} `{EqDecision K} (k x : K) (d : list (K * nat)) :
  x ∈ map fst (zähle k d) <-> x = k \/ x ∈ map fst d.
Proof.
  induction d as [|[k' c] d IH]; cbn [zähle map fst].
  - rewrite list_elem_of_singleton, elem_of_nil. tauto.
  - destruct (decide (k' = k)) as [->|Hne]; cbn [map fst];
      rewrite !elem_of_cons; [tauto|]. rewrite IH. tauto.
Qed.

Lemma zähle_NoDup {K} `{EqDecision K} (k : K) (d : list (K * nat)) :
  NoDup (map fst d) -> NoDup (map fst (zähle k d)).
Proof.
  induction d as [|[k' c] d IH]; cbn [zähle map fst]; intros Hd.
  - apply NoDup_singleton.
  - apply NoDup_cons in Hd as [Hk' Hd].
    destruct (decide (k' = k)) as [->|Hne]; cbn [map fst]; apply NoDup_cons.
    + split; assumption.
    + split; [|apply IH; assumption].
      rewrite zähle_keys. intros [->|Hin]; [congruence|contradiction].
Qed.

Lemma einsortieren_sum {K} (x : K * nat) (l : list (K * nat)) :
  sum_list (map snd (einsortieren x l)) = x.2 + sum_list (map snd l).
Proof.
  induction l as [|y l IH]; [cbn; lia|]. cbn [einsortieren].
  destruct (y.2 <? x.2); cbn [map]; rewrite !sum_list_cons; [lia|].
  rewrite IH. lia.
Qed.

Lemma einsortieren_perm {K} (x : K * nat) (l : list (K * nat)) :
  einsortieren x l ≡ₚ x :: l.
Proof.
  induction l as [|y l IH]; [reflexivity|]. cbn [einsortieren].
  destruct (y.2 <? x.2); [reflexivity|]. rewrite IH. apply perm_swap.
Qed.

Lemma einsortieren_sorted {K} (x : K * nat) (l : list (K * nat)) :
  Sorted (fun a b => b.2 <= a.2) l ->
  Sorted (fun a b => b.2 <= a.2) (einsortieren x l).
Proof.
  induction l as [|y l IH]; intros Hs; cbn [einsortieren].
  - repeat constructor.
  - apply Sorted_inv in Hs as [Hs Hhd].
    destruct (y.2 <? x.2) eqn:Hyx.
    + apply Nat.ltb_lt in Hyx. constructor.
      * constructor; assumption.
      * constructor. lia.
    + apply Nat.ltb_ge in Hyx. constructor; [apply IH; assumption|].
      destruct l as [|z l]; cbn [einsortieren].
      * constructor. assumption.
      * destruct (z.2 <? x.2); constructor; [assumption|].
        inversion Hhd. assumption.
Qed.

Lemma absteigend_eigenschaften {K} (items : list (K * nat)) :
  Sorted (fun a b => b.2 <= a.2) (absteigend items)
  /\ absteigend items ≡ₚ items
  /\ sum_list (map snd (absteigend items)) = sum_list (map snd items).
Proof.
  unfold absteigend.
  assert (Hall : forall acc : list (K * nat),
            Sorted (fun a b => b.2 <= a.2) acc ->
            Sorted (fun a b => b.2 <= a.2)
                   (foldl (fun sortiert x => einsortieren x sortiert) acc items)
            /\ foldl (fun sortiert x => einsortieren x sortiert) acc items ≡ₚ acc ++ items
            /\ sum_list (map snd (foldl (fun sortiert x => einsortieren x sortiert) acc items))
               = sum_list (map snd acc) + sum_list (map snd items)).
  { induction items as [|x items IH]; intros acc Hacc; cbn [foldl].
    - rewrite app_nil_r. cbn. split; [assumption|]. split; [reflexivity|lia].
    - destruct (IH (einsortieren x acc)) as (Hs & Hp & Hsum).
      { apply einsortieren_sorted. assumption. }
      split; [assumption|]. split.
      + rewrite Hp, einsortieren_perm. apply Permutation_middle.
      + rewrite Hsum, einsortieren_sum. cbn [map]. rewrite sum_list_cons. lia. }
  destruct (Hall []) as (Hs & Hp & Hsum); [constructor|].
  split; [assumption|]. split; [assumption|]. rewrite Hsum. reflexivity.
Qed.

Lemma Sorted_take {A} (R : A -> A -> Prop) (n : nat) (l : list A) :
  Sorted R l -> Sorted R (take n l).
Proof.
  revert l. induction n as [|n IH]; intros [|x l] Hs; cbn [take];
    try constructor.
  - apply IH. apply Sorted_inv in Hs as [Hs _]. assumption.
  - apply Sorted_inv in Hs as [_ Hhd]. destruct n; [constructor|].
    destruct l; cbn [take]; [constructor|]. inversion Hhd. constructor. assumption.
Qed.

Lemma validierungen_cons (n : EchtzeitNachricht) (l : list EchtzeitNachricht) :
  validierungen (n :: l)
  = match validierung n with
    | Some v => v :: validierungen l
    | None => validierungen l
    end.
Proof. reflexivity. Qed.

Lemma weltebenen_count_eigenschaften (nachrichten : list EchtzeitNachricht) :
  forall acc : list (Olam * nat),
    NoDup (map fst acc) ->
    NoDup (map fst (foldl (fun d n => match validierung n with
                                      | Some v => zähle (weltebene v) d
                                      | None => d
                                      end) acc nachrichten))
    /\ sum_list (map snd (foldl (fun d n => match validierung n with
                                            | Some v => zähle (weltebene v) d
                                            | None => d
                                            end) acc nachrichten))
       = sum_list (map snd acc) + length (validierungen nachrichten).
Proof.
  induction nachrichten as [|n nachrichten IH]; intros acc Hacc; cbn [foldl].
  - cbn. split; [assumption|lia].
  - rewrite validierungen_cons. destruct (validierung n) as [v|].
    + destruct (IH (zähle (weltebene v) acc)) as [Hn Hs];
        [apply zähle_NoDup; assumption|].
      split; [assumption|]. rewrite Hs, zähle_sum. cbn [length]. lia.
    + apply IH. assumption.
Qed.

Lemma weltebenen_zeilen_app (l1 l2 : list Berichtszeile) :
  weltebenen_zeilen (l1 ++ l2) = weltebenen_zeilen l1 ++ weltebenen_zeilen l2.
Proof. apply omap_app. Qed.

Lemma empfehlungs_zeilen_app (l1 l2 : list Berichtszeile) :
  empfehlungs_zeilen (l1 ++ l2) = empfehlungs_zeilen l1 ++ empfehlungs_zeilen l2.
Proof. apply omap_app. Qed.

Lemma weltebenen_zeilen_cons (z : Berichtszeile) (l : list Berichtszeile) :
  weltebenen_zeilen (z :: l)
  = match z with
    | B_Weltebene e c => (e, c) :: weltebenen_zeilen l
    | _ => weltebenen_zeilen l
    end.
Proof. destruct z; reflexivity. Qed.

Lemma empfehlungs_zeilen_cons (z : Berichtszeile) (l : list Berichtszeile) :
  empfehlungs_zeilen (z :: l)
  = match z with
    | B_Empfehlung e c => (e, c) :: empfehlungs_zeilen l
    | _ => empfehlungs_zeilen l
    end.
Proof. destruct z; reflexivity. Qed.

Lemma weltebenen_zeilen_welt (l : list (Olam * nat)) :
  weltebenen_zeilen (map (fun '(ebene, count) => B_Weltebene ebene count) l) = l.
Proof.
  induction l as [|[e c] l IH]; [reflexivity|].
  cbn [map]. rewrite weltebenen_zeilen_cons, IH. reflexivity.
Qed.

Lemma weltebenen_zeilen_empf (l : list (str * nat)) :
  weltebenen_zeilen (map (fun '(empf, count) => B_Empfehlung empf count) l) = [].
Proof.
  induction l as [|[e c] l IH]; [reflexivity|].
  cbn [map]. rewrite weltebenen_zeilen_cons. assumption.
Qed.

Lemma empfehlungs_zeilen_welt (l : list (Olam * nat)) :
  empfehlungs_zeilen (map (fun '(ebene, count) => B_Weltebene ebene count) l) = [].
Proof.
  induction l as [|[e c] l IH]; [reflexivity|].
  cbn [map]. rewrite empfehlungs_zeilen_cons. assumption.
Qed.

Lemma empfehlungs_zeilen_empf (l : list (str * nat)) :
  empfehlungs_zeilen (map (fun '(empf, count) => B_Empfehlung empf count) l) = l.
Proof.
  induction l as [|[e c] l IH]; [reflexivity|].
  cbn [map]. rewrite empfehlungs_zeilen_cons, IH. reflexivity.
Qed.

(** The two kinds of lines of a report that was returned. *)
Lemma generiere_wozu_bericht_zeilen (nachrichten : list EchtzeitNachricht)
    (bericht : list Berichtszeile) :
  generiere_wozu_bericht nachrichten = Ok bericht ->
  weltebenen_zeilen bericht
  = absteigend (foldl (fun d n => match validierung n with
                                  | Some v => zähle (weltebene v) d
                                  | None => d
                                  end) [] nachrichten)
  /\ exists empf_counter : list (str * nat),
       empfehlungs_zeilen bericht = take 5 (absteigend empf_counter).
Proof.
  unfold generiere_wozu_bericht. cbv zeta. unfold mbind, result_bind.
  destruct (PyFloat.div_int _ (length nachrichten)) as [d|e]; [|discriminate].
  destruct (PyFloat.div_int _ (length nachrichten)) as [a|e]; [|discriminate].
  intros Hb. injection Hb as <-. split.
  - repeat (first [ rewrite weltebenen_zeilen_cons; cbv iota
                  | rewrite weltebenen_zeilen_app ]).
    rewrite weltebenen_zeilen_welt, weltebenen_zeilen_empf.
    change (weltebenen_zeilen []) with (@nil (Olam * nat)).
    rewrite !app_nil_r. reflexivity.
  - eexists.
    repeat (first [ rewrite empfehlungs_zeilen_cons; cbv iota
                  | rewrite empfehlungs_zeilen_app ]).
    rewrite empfehlungs_zeilen_welt, empfehlungs_zeilen_empf.
    change (empfehlungs_zeilen []) with (@nil (str * nat)).
    rewrite !app_nil_r. reflexivity.
Qed.

(** X13. On a non-empty batch the report is returned, and in it the
    distribution of the world levels names every world at most once,
    its counts add up to the number of messages that carry a verdict,
    and its lines are in descending order of count; there are at most
    five suggestion lines, also in descending order of count. *)
Theorem generiere_wozu_bericht_verteilung (nachrichten : list EchtzeitNachricht) :
  nachrichten <> [] ->
  exists bericht,
    generiere_wozu_bericht nachrichten = Ok bericht
    /\ NoDup (map fst (weltebenen_zeilen bericht))
    /\ sum_list (map snd (weltebenen_zeilen bericht)) = length (validierungen nachrichten)
    /\ Sorted (fun a b => b.2 <= a.2) (weltebenen_zeilen bericht)
    /\ length (empfehlungs_zeilen bericht) <= 5
    /\ Sorted (fun a b => b.2 <= a.2) (empfehlungs_zeilen bericht).
Proof.
  intros Hne.
  destruct (generiere_wozu_bericht nachrichten) as [bericht|e] eqn:Hb.
  - exists bericht. split; [reflexivity|].
    destruct (generiere_wozu_bericht_zeilen _ _ Hb) as (-> & ec & ->).
    destruct (weltebenen_count_eigenschaften nachrichten [] (NoDup_nil_2))
      as [Hnd Hsum].
    destruct (absteigend_eigenschaften
                (foldl (fun d n => match validierung n with
                                   | Some v => zähle (weltebene v) d
                                   | None => d
                                   end) [] nachrichten)) as (Hs & Hp & Hsum').
    destruct (absteigend_eigenschaften ec) as (Hse & _ & _).
    split; [|split; [|split; [|split]]].
    + pose proof (Permutation_map fst Hp) as Hpm. rewrite Hpm. exact Hnd.
    + rewrite Hsum', Hsum. reflexivity.
    + assumption.
    + rewrite length_take. lia.
    + apply Sorted_take. assumption.
  - exfalso. destruct nachrichten as [|n l]; [congruence|].
    unfold generiere_wozu_bericht in Hb. cbn [length PyFloat.div_int] in Hb.
    unfold mbind, result_bind in Hb. discriminate.
Qed.

End Weitere_Bericht.

(* ===================================================================== *)
(** ** Further properties: the Sod level and the glossary check *)
(* ===================================================================== *)

Section Weitere_Pardes.
Context `{PyMehr.Leerraum} `{Pardes.Umgebung}.
Import PyMehr Pardes.

(** X14. The spiral grade is never 0: without a calculator there is no
    grade, and with one the grade of a text lies between 1 and 360 and
    is congruent to the gematria of the text modulo 360, 360 standing
    in for the remainder 0. *)
Theorem calculate_spiral_grade_bereich (text : str) :
  (spiral_calc = false -> calculate_spiral_grade text = Ok None)
  /\ (forall g, spiral_calc = true -> gematria_value text = Ok g ->
        calculate_spiral_grade text
        = Ok (Some (if (g mod 360 =? 0)%Z then 360%Z else (g mod 360)%Z)))
  /\ (forall grade, calculate_spiral_grade text = Ok (Some grade) ->
        (1 <= grade <= 360)%Z
        /\ exists g, gematria_value text = Ok g /\ (grade mod 360 = g mod 360)%Z).
Proof.
  unfold calculate_spiral_grade. split; [|split].
  - intros ->. reflexivity.
  - intros g -> ->. reflexivity.
  - intros grade. destruct spiral_calc; [|discriminate]. cbn [negb].
    destruct (gematria_value text) as [g|e]; [|discriminate].
    unfold mbind, result_bind. intros Hg. injection Hg as <-.
    pose proof (Z.mod_pos_bound g 360 ltac:(lia)) as Hb.
    destruct (Z.eqb_spec (g mod 360) 0) as [Hz|Hz].
    + split; [lia|]. exists g. split; [reflexivity|]. rewrite Hz. reflexivity.
    + split; [lia|]. exists g. split; [reflexivity|]. apply Z.mod_mod. lia.
Qed.

(** X16. With a calculator, the spiral analysis of a text reports the
    position [gematria mod 360], which is 0 when the gematria is a
    multiple of 360, and the winding 2 in that case and 1 otherwise. *)
Theorem spiral_time_analysis_position (text : str) (g : Z) :
  spiral_calc = true ->
  gematria_value text = Ok g ->
  _spiral_time_analysis text
  = Ok (lit "Windung " ++ str_int (if (g mod 360 =? 0)%Z then 2 else 1)
        ++ lit ", Position " ++ str_int (g mod 360) ++ lit "°").
Proof.
  intros Hc Hg. unfold _spiral_time_analysis, calculate_spiral_grade.
  rewrite Hc, Hg. cbn [negb]. unfold mbind, result_bind.
  pose proof (Z.mod_pos_bound g 360 ltac:(lia)) as Hb.
  destruct (Z.eqb_spec (g mod 360) 0) as [Hz|Hz].
  - rewrite Hz. reflexivity.
  - destruct (Z.eqb_spec (g mod 360) 0) as [|_]; [contradiction|].
    rewrite Z.mod_mod by lia. rewrite Z.div_small by lia. reflexivity.
Qed.





End Weitere_Pardes.

Section Weitere_GlossarCheck.
Import PyMehr GlossarCheck.

Lemma count_go_pos (old text : str) :
  old <> [] -> str_in old text = true -> 1 <= count_go old 0 text.
Proof.
  intros Ho. induction text as [|c r IH]; cbn [str_in count_go]; intros Hs.
  - destruct old; [congruence|discriminate].
  - destruct (startswith old (c :: r)); [lia|]. apply IH. exact Hs.
Qed.

Lemma count_pos (text old : str) :
  str_in old text = true -> 1 <= count text old.
Proof.
  intros Hs. destruct old as [|a old]; [cbn; lia|].
  apply count_go_pos; [discriminate|assumption].
Qed.

Lemma foldl_violations (content : str) (tabelle : list (str * str)) :
  forall acc,
    foldl (fun violations '(old, new) =>
             if str_in old content
             then violations ++ [ {| alt := old; anzahl := count content old; neu := new |} ]
             else violations) acc tabelle
    = acc ++ map (fun e => {| alt := e.1; anzahl := count content e.1; neu := e.2 |})
                 (List.filter (fun e => str_in e.1 content) tabelle).
Proof.
  induction tabelle as [|[old new] tabelle IH]; intros acc; cbn [foldl List.filter].
  - cbn. symmetry. apply app_nil_r.
  - cbn [fst]. rewrite IH. destruct (str_in old content); [|reflexivity].
    cbn [map fst snd]. rewrite <- app_assoc. reflexivity.
Qed.

Lemma filter_nichts {A} (p : A -> bool) (l : list A) :
  Forall (fun x => p x = false) l -> List.filter p l = [].
Proof.
  induction 1 as [|x l Hx _ IH]; [reflexivity|].
  cbn [List.filter]. rewrite Hx. assumption.
Qed.

(** X17. The check of a file content reports a key of its table exactly
    when the key occurs in the content, in the order of the table, with
    the number of its occurrences, which is at least 1; so there are at
    most six reports, and none when no key occurs. *)
Theorem check_file_meldungen (content : str) :
  violations content
  = map (fun e => {| alt := e.1; anzahl := count content e.1; neu := e.2 |})
        (List.filter (fun e => str_in e.1 content) transformations)
  /\ (forall v, v ∈ violations content ->
        (alt v, neu v) ∈ transformations
        /\ str_in (alt v) content = true
        /\ anzahl v = count content (alt v)
        /\ 1 <= anzahl v)
  /\ length (check_file content) <= 6
  /\ (Forall (fun e => str_in e.1 content = false) transformations ->
      check_file content = []).
Proof.
  assert (Hv : violations content
    = map (fun e => {| alt := e.1; anzahl := count content e.1; neu := e.2 |})
          (List.filter (fun e => str_in e.1 content) transformations)).
  { unfold violations. rewrite foldl_violations. reflexivity. }
  split; [assumption|]. split; [|split].
  - intros v Hin. rewrite Hv in Hin.
    apply list_elem_of_In, in_map_iff in Hin as ([old new] & <- & Hin).
    apply filter_In in Hin as [Hin Hs]. cbn [fst snd alt neu anzahl] in *.
    split; [apply list_elem_of_In; assumption|]. split; [assumption|].
    split; [reflexivity|]. apply count_pos. assumption.
  - unfold check_file. rewrite Hv, !length_map.
    etransitivity; [apply filter_length_le|]. reflexivity.
  - intros Hf. unfold check_file. rewrite Hv.
    rewrite (filter_nichts (fun e => str_in e.1 content)) by assumption.
    reflexivity.
Qed.

End Weitere_GlossarCheck.

(* ===================================================================== *)
(** ** The further theorems at concrete inputs *)
(* ===================================================================== *)

Section Weitere_Belege.
Import Beispiel BeispielMehr PyMehr ParserMehr WozuMehr Pardes.
#[local] Existing Instance laufzeit.
#[local] Existing Instance kollaborateure.
#[local] Existing Instance leerraum.
#[local] Existing Instance ignorecase.
#[local] Existing Instance umgebung.

Example str_int_beispiele :
  str_int 0 = lit "0" /\ str_int 360 = lit "360" /\ str_int (-12) = lit "-12".
Proof. repeat split; vm_compute; reflexivity. Qed.

Example split_beispiel :
  split (lit "  um  zu lernen ") = [lit "um"; lit "zu"; lit "lernen"].
Proof. vm_compute. reflexivity. Qed.

Example count_beispiel :
  count (lit "aaaa") (lit "aa") = 2 /\ count (lit "ab") [] = 3.
Proof. split; vm_compute; reflexivity. Qed.

Example validiere_begriff_beispiele :
  gültig (validiere_begriff (lit "Qabbala")) = true
  /\ gültig (validiere_begriff (lit "die Zerstörung")) = false
  /\ gültig (validiere_begriff (lit "verzerrt")) = true.
Proof. repeat split; vm_compute; reflexivity. Qed.

Example check_file_beispiel :
  GlossarCheck.check_file (lit "Kabbala und Kabbala zerbrechen")
  = [ lit "zerbrechen (1x) → bersten"; lit "Kabbala (2x) → Qabbala" ].
Proof. vm_compute. reflexivity. Qed.

Example Sod_beispiel :
  interpretation (analyze_text (lit "abc def") SOD)
  = lit "Tiefe Gematria: Standard: 597, Klein: 3, Quadrat: 356409 | Spiralzeit: Windung 1, Position 237° | Permutationen: cba, fed".
Proof. vm_compute. reflexivity. Qed.

Lemma transformiere_ohne_treffer_beleg :
  Forall (fun r => str_in (wort_von r.2.1) (lit "Qabbala und Qawana") = false)
         (regelfolge (transformationen neu))
  /\ (transformiere neu (lit "Qabbala und Qawana")).1 = (lit "Qabbala und Qawana", []).
Proof.
  assert (Hf : Forall (fun r => str_in (wort_von r.2.1) (lit "Qabbala und Qawana") = false)
                      (regelfolge (transformationen neu))).
  { refine (bool_decide_unpack _ _). vm_compute. exact I. }
  split; [exact Hf|].
  destruct (transformiere_ohne_treffer neu (lit "Qabbala und Qawana") Hf) as [Ht _].
  exact Ht.
Defined.

Lemma aenderung_aus_tabelle_beleg :
  zweite_aenderung ∈ (transformiere neu text_zerbrochen).1.2
  /\ exists regeln muster,
       (kategorie zweite_aenderung, regeln) ∈ transformationen neu
       /\ (muster, ersatz zweite_aenderung) ∈ regeln
       /\ wort_von muster = original zweite_aenderung.
Proof.
  assert (Hin : zweite_aenderung ∈ (transformiere neu text_zerbrochen).1.2).
  { apply list_elem_of_In. vm_compute. right. left. reflexivity. }
  split; [exact Hin|].
  exact (aenderung_aus_tabelle neu text_zerbrochen zweite_aenderung Hin).
Defined.

Lemma transform_ohne_treffer_beleg :
  Forall (fun e => str_in e.1 (lit "Licht") = false) K_zu_Q
  /\ Forall (fun e => str_in e.1 (lit "Licht") = false) Zer_Elimination
  /\ transform (lit "Licht") = lit "Licht".
Proof.
  assert (HK : Forall (fun e => str_in e.1 (lit "Licht") = false) K_zu_Q).
  { refine (bool_decide_unpack _ _). vm_compute. exact I. }
  assert (HZ : Forall (fun e => str_in e.1 (lit "Licht") = false) Zer_Elimination).
  { refine (bool_decide_unpack _ _). vm_compute. exact I. }
  split; [exact HK|]. split; [exact HZ|].
  exact (transform_ohne_treffer (lit "Licht") HK HZ).
Defined.

Lemma sende_nachricht_ohne_wozu_beleg :
  wozu schlechte_nachricht = []
  /\ Forall (fun e : str * str => e.1 <> []) K_zu_Q
  /\ Forall (fun e : str * str => e.1 <> []) Zer_Elimination
  /\ (sende_nachricht leer schlechte_nachricht []).1 = Ok false.
Proof.
  assert (Hw : wozu schlechte_nachricht = []) by (vm_compute; reflexivity).
  assert (HK : Forall (fun e : str * str => e.1 <> []) K_zu_Q).
  { repeat constructor; vm_compute; discriminate. }
  assert (HZ : Forall (fun e : str * str => e.1 <> []) Zer_Elimination).
  { repeat constructor; vm_compute; discriminate. }
  split; [exact Hw|]. split; [exact HK|]. split; [exact HZ|].
  rewrite (sende_nachricht_ohne_wozu leer schlechte_nachricht [] Hw HK HZ).
  reflexivity.
Defined.

Lemma azilut_score_schwelle_beleg :
  wozu gute_nachricht <> []
  /\ PyFloat.gt (_berechne_azilut_score gute_nachricht) (PyFloat.literal 7 10)
     = über_schwelle (indicators_found gute_nachricht) (markers_found gute_nachricht)
                     (dict_in WOZU (frage_hierarchie gute_nachricht))
  /\ über_schwelle (indicators_found gute_nachricht) (markers_found gute_nachricht)
                   (dict_in WOZU (frage_hierarchie gute_nachricht)) = true.
Proof.
  assert (Hw : wozu gute_nachricht <> []) by (vm_compute; discriminate).
  split; [exact Hw|]. split.
  - destruct (azilut_score_schwelle gute_nachricht Hw) as [Hs _]. exact Hs.
  - vm_compute. reflexivity.
Defined.

Lemma azilut_score_monoton_beleg :
  wozu für_A <> []
  /\ PyFloat.leb (_berechne_azilut_score für_A)
                 (_berechne_azilut_score
                    (set_inhalt für_A (inhalt für_A ++ lit " Emanation"))) = true.
Proof.
  assert (Hw : wozu für_A <> []) by (vm_compute; discriminate).
  split; [exact Hw|].
  destruct (azilut_score_monoton für_A Hw) as [Hm _].
  exact (Hm (lit " Emanation")).
Defined.

Lemma empfange_nachrichten_ein_modul_beleg :
  Forall (fun n => empfänger_modul n = lit "A") queue_A_A_A
  /\ empfange_nachrichten 2 (lit "A") queue_A_A_A
     = (take 2 queue_A_A_A, drop 2 queue_A_A_A).
Proof.
  assert (Hq : Forall (fun n => empfänger_modul n = lit "A") queue_A_A_A).
  { repeat constructor. }
  split; [exact Hq|].
  exact (empfange_nachrichten_ein_modul 2 (lit "A") queue_A_A_A Hq).
Defined.

Lemma generiere_wozu_bericht_verteilung_beleg :
  [ set_validierung schlechte_nachricht kurzes_urteil; gute_nachricht ] <> []
  /\ exists bericht,
       generiere_wozu_bericht
         [ set_validierung schlechte_nachricht kurzes_urteil; gute_nachricht ]
       = Ok bericht
       /\ weltebenen_zeilen bericht = [ (ASIJA, 1) ]
       /\ length (empfehlungs_zeilen bericht) <= 5.
Proof.
  assert (Hne : [ set_validierung schlechte_nachricht kurzes_urteil; gute_nachricht ]
                <> []) by discriminate.
  split; [exact Hne|].
  destruct (generiere_wozu_bericht_verteilung _ Hne)
    as (bericht & Hb & _ & _ & _ & Hl & _).
  exists bericht. split; [exact Hb|]. split; [|exact Hl].
  vm_compute in Hb. injection Hb as <-. reflexivity.
Defined.

Lemma spiral_time_analysis_position_beleg :
  spiral_calc = true
  /\ gematria_value (lit "abc") = Ok 294%Z
  /\ _spiral_time_analysis (lit "abc") = Ok (lit "Windung 1, Position 294°").
Proof.
  assert (Hc : spiral_calc = true) by reflexivity.
  assert (Hg : gematria_value (lit "abc") = Ok 294%Z) by (vm_compute; reflexivity).
  split; [exact Hc|]. split; [exact Hg|].
  rewrite (spiral_time_analysis_position (lit "abc") 294 Hc Hg).
  vm_compute. reflexivity.
Defined.

End Weitere_Belege.
